(** * google-web-search-mcp: citation merging, OAuth loopback flow,
      credential cache and project resolution

    A shallow embedding of [src/index.ts] (the search handler and its
    citation merger), [src/oauth.ts] (loopback authorization flow and the
    credential cache) and [src/setup.ts] (project resolution).

    JavaScript strings are sequences of UTF-16 code units, which is what
    [split('')], [splice] and [trim] observe; they are modelled as
    [list N].  Property names and environment variable names are ordinary
    Rocq strings. *)

From Stdlib Require Import ZArith NArith Ascii String DecimalString.
From stdpp Require Import base numbers list gmap strings sorting.

Open Scope Z_scope.

(* ===================================================================== *)
(** ** JavaScript strings *)
(* ===================================================================== *)

Abbreviation jsstring := (list N).

(** An ASCII literal of the source, as code units. *)
Fixpoint lit (s : string) : jsstring :=
  match s with
  | EmptyString => []
  | String a s' => N_of_ascii a :: lit s'
  end.

(** The line feed (backslash-n in the source) and the quotation mark. *)
Definition nl : jsstring := [10%N].
Definition dquote : jsstring := [34%N].

(** Template interpolation [`${n}`] of an integral number.  Numbers are
    taken as integers of magnitude below 2^53: on these the arithmetic of
    the source ([n + 1], [b - a]) is exact and the digits are the plain
    decimal ones; larger numbers are outside the model. *)
Definition number_to_string (n : Z) : jsstring :=
  lit (NilZero.string_of_int (Z.to_int n)).

(** [WhiteSpace] and [LineTerminator] code units, the ones
    [String.prototype.trim] strips. *)
Definition is_whitespace (c : N) : bool :=
  ((9 <=? c) && (c <=? 13) || (c =? 32) || (c =? 160) || (c =? 5760)
   || (8192 <=? c) && (c <=? 8202) || (c =? 8232) || (c =? 8233)
   || (c =? 8239) || (c =? 8287) || (c =? 12288) || (c =? 65279))%N.

Fixpoint trim_start (s : jsstring) : jsstring :=
  match s with
  | [] => []
  | c :: s' => if is_whitespace c then trim_start s' else s
  end.

Definition trim (s : jsstring) : jsstring :=
  reverse (trim_start (reverse (trim_start s))).

(** [s === ''] *)
Definition is_empty_string (s : jsstring) : bool :=
  match s with [] => true | _ => false end.

(** [a || d] on an optional string: [undefined] and [''] are falsy. *)
Definition or_default (a : option jsstring) (d : jsstring) : jsstring :=
  match a with
  | Some (c :: s) => c :: s
  | _ => d
  end.

(** Truthiness of an optional string, and [a || b] between two of them. *)
Definition truthy (a : option jsstring) : bool :=
  match a with
  | Some (_ :: _) => true
  | _ => false
  end.

Definition or_else (a b : option jsstring) : option jsstring :=
  if truthy a then a else b.

(** [s.indexOf(sub) === -1] is [negb (includes sub s)]. *)
Fixpoint is_prefix_of (p s : jsstring) : bool :=
  match p, s with
  | [], _ => true
  | _ :: _, [] => false
  | a :: p', b :: s' => (a =? b)%N && is_prefix_of p' s'
  end.

Fixpoint includes (sub s : jsstring) : bool :=
  is_prefix_of sub s ||
  match s with
  | [] => false
  | _ :: s' => includes sub s'
  end.

(* ===================================================================== *)
(** ** Arrays *)
(* ===================================================================== *)

(** [Array.prototype.join] *)
Fixpoint array_join (sep : jsstring) (l : list jsstring) : jsstring :=
  match l with
  | [] => []
  | [x] => x
  | x :: l' => x ++ sep ++ array_join sep l'
  end.

(** [s.split('')]: one element per code unit. *)
Definition split_chars (s : jsstring) : list jsstring :=
  map (λ c, [c]) s.

(** The position [splice(start, 0, item)] inserts at in an array of [len]
    elements: a negative [start] counts from the end and stops at 0, a
    [start] past the end is the end. *)
Definition splice_start (len : nat) (start : Z) : nat :=
  if start <? 0
  then Z.to_nat (Z.max (Z.of_nat len + start) 0)
  else Nat.min (Z.to_nat start) len.

(** [arr.splice(start, 0, item)] *)
Definition splice {X} (arr : list X) (start : Z) (item : X) : list X :=
  let k := splice_start (length arr) start in
  take k arr ++ item :: drop k arr.

(** [Array.prototype.sort(cmp)] is a stable sort (ECMAScript 2019): [a]
    stays before a later [b] unless [cmp a b > 0].  Insertion from the
    right realises it; [array_sort_sorted], [array_sort_perm] and
    [array_sort_stable] below say that it is that sort. *)
Fixpoint sort_insert {X} (cmp : X → X → Z) (x : X) (l : list X) : list X :=
  match l with
  | [] => [x]
  | y :: l' => if cmp x y <=? 0 then x :: l else y :: sort_insert cmp x l'
  end.

Definition array_sort {X} (cmp : X → X → Z) (l : list X) : list X :=
  foldr (sort_insert cmp) [] l.

(* ===================================================================== *)
(** ** Grounding metadata ([src/index.ts]) *)
(* ===================================================================== *)

Record GroundingChunkWeb := {
  uri : option jsstring;
  title : option jsstring;
}.

Record GroundingChunkItem := {
  web : option GroundingChunkWeb;
}.

(** The indices are offsets counted in code units; numbers that are not
    integers are outside the model. *)
Record GroundingSupportSegment := {
  startIndex : Z;
  endIndex : Z;
  text : option jsstring;
}.

(** [confidenceScores] is never read and is left out. *)
Record GroundingSupportItem := {
  segment : option GroundingSupportSegment;
  groundingChunkIndices : option (list Z);
}.

Record Insertion := {
  index : Z;
  marker : jsstring;
}.

(* ===================================================================== *)
(** ** The citation merger (handleWebSearch, lines 195-231) *)
(* ===================================================================== *)

(** [`[${index + 1}] ${title} (${uri})`] *)
Definition formatSource (index : nat) (source : GroundingChunkItem) : jsstring :=
  let title := or_default (web source ≫= title) (lit "Untitled") in
  let uri := or_default (web source ≫= uri) (lit "No URI") in
  lit "[" ++ number_to_string (Z.of_nat index + 1) ++ lit "] " ++ title
    ++ lit " (" ++ uri ++ lit ")".

Definition sourceListFormatted (sources : list GroundingChunkItem) : list jsstring :=
  imap formatSource sources.

(** [indices.map(i => `[${i + 1}]`).join('')] *)
Definition citationMarker (indices : list Z) : jsstring :=
  array_join []
    (map (λ chunkIndex, lit "[" ++ number_to_string (chunkIndex + 1) ++ lit "]")
       indices).

(** The [groundingSupports.forEach] that pushes one insertion per support
    with a segment and a chunk index list. *)
Definition collectInsertions (groundingSupports : list GroundingSupportItem)
  : list Insertion :=
  foldl (λ insertions support,
           match segment support, groundingChunkIndices support with
           | Some seg, Some indices =>
               insertions ++ [{| index := endIndex seg;
                                 marker := citationMarker indices |}]
           | _, _ => insertions
           end) [] groundingSupports.

(** [(a, b) => b.index - a.index] *)
Definition byIndexDescending (a b : Insertion) : Z := index b - index a.

(** [insertions.forEach(i => responseChars.splice(i.index, 0, i.marker))] *)
Definition applyInsertions (responseChars : list jsstring)
    (insertions : list Insertion) : list jsstring :=
  foldl (λ chars insertion, splice chars (index insertion) (marker insertion))
    responseChars insertions.

Definition insertMarkers (responseText : jsstring)
    (groundingSupports : list GroundingSupportItem) : jsstring :=
  let insertions := array_sort byIndexDescending (collectInsertions groundingSupports) in
  array_join [] (applyInsertions (split_chars responseText) insertions).

Definition sourcesBlock (sources : list GroundingChunkItem) : jsstring :=
  nl ++ nl ++ lit "Sources:" ++ nl ++ array_join nl (sourceListFormatted sources).

Definition mergeCitations (responseText : jsstring)
    (sources : option (list GroundingChunkItem))
    (groundingSupports : option (list GroundingSupportItem)) : jsstring :=
  match sources with
  | Some (s :: srcs) =>
      let sources := s :: srcs in
      let modifiedResponseText :=
        match groundingSupports with
        | Some (g :: gs) => insertMarkers responseText (g :: gs)
        | _ => responseText
        end in
      if bool_decide (0 < length (sourceListFormatted sources))%nat
      then modifiedResponseText ++ sourcesBlock sources
      else modifiedResponseText
  | _ => responseText
  end.

(* ===================================================================== *)
(** ** Effects: promises, exceptions, files and remote calls *)
(* ===================================================================== *)

(** What awaiting a promise gives: a value, a rejection (the message of
    the thrown [Error]), or nothing at all when the promise never settles. *)
Inductive outcome (A : Type) : Type :=
| Ok (a : A)
| Throw (message : jsstring)
| Pending.
Arguments Ok {A} a.
Arguments Throw {A} message.
Arguments Pending {A}.

(** google-auth-library's [Credentials]. *)
Record Credentials := {
  access_token : option jsstring;
  refresh_token : option jsstring;
  expiry_date : option Z;
  scope : option jsstring;
  token_type : option jsstring;
  id_token : option jsstring;
}.

Definition noCredentials : Credentials :=
  {| access_token := None; refresh_token := None; expiry_date := None;
     scope := None; token_type := None; id_token := None |}.

(** The project config file of [saveProjectConfig]. *)
Record ProjectConfig := {
  project_id : option jsstring;
  setup_date : option jsstring;
  auth_type : option jsstring;
}.

(** [ProjectSetupResponse] of [src/setup.ts]. *)
Record ProjectSetupResponse := {
  cloudaicompanionProject : option jsstring;
  userTier : option jsstring;
  onboardingRequired : option bool;
}.

(** The fields [onboardUser] reads from its response:
    [result.response?.cloudaicompanionProject?.id] and
    [result.cloudaicompanionProject]. *)
Record OnboardUserResult := {
  onboard_response_project_id : option jsstring;
  onboard_project : option jsstring;
}.

Record GroundingMetadata := {
  groundingChunks : option (list GroundingChunkItem);
  groundingSupports : option (list GroundingSupportItem);
}.

(** [candidates[i]]: [content?.parts] with each part's [text], and
    [groundingMetadata]. *)
Record Candidate := {
  content_parts : option (list (option jsstring));
  groundingMetadata : option GroundingMetadata;
}.

(** The body of the Code Assist [generateContent] response, read through
    [result.response?.candidates]. *)
Record GenerateContentResult := {
  response_candidates : option (list Candidate);
}.

(** [result.response] of [chat.sendMessage]: [text()] may throw. *)
Record EnhancedResponse := {
  response_text : outcome jsstring;
  candidates : option (list Candidate);
}.

(** A [fetch] response whose JSON body has shape [B]. *)
Record FetchResponse (B : Type) := {
  ok : bool;
  status : Z;
  statusText : jsstring;
  body_text : outcome jsstring;
  body_json : outcome B;
}.
Arguments ok {B} _.
Arguments status {B} _.
Arguments statusText {B} _.
Arguments body_text {B} _.
Arguments body_json {B} _.

(** The request the loopback listener receives: the handler reads its
    [url], the request target as it came over the wire. *)
Record IncomingMessage := {
  req_url : jsstring;
}.

(** [URLSearchParams]: the name-value pairs of a query, in order. *)
Abbreviation URLSearchParams := (list (jsstring * jsstring)).

(** [qs.get(name)]: the first value of that name, or [null]. *)
Fixpoint searchParams_get (qs : URLSearchParams) (name : jsstring)
  : option jsstring :=
  match qs with
  | [] => None
  | (k, v) :: qs' => if bool_decide (k = name) then Some v else searchParams_get qs' name
  end.

(** Everything outside the repository: the process environment, node's
    [path], [os], [crypto], [net], [url] and [JSON], the [open] package,
    google-auth-library's [OAuth2Client], the generative-ai SDK and the
    three Code Assist endpoints reached through [fetch]. *)
Record Platform := {
  env : gmap string jsstring;
  homedir : jsstring;
  path_join : list jsstring → jsstring;
  path_dirname : jsstring → jsstring;
  date_now_iso : jsstring;
  JSON_parse_credentials : jsstring → option Credentials;
  JSON_stringify_credentials : Credentials → jsstring;
  JSON_parse_config : jsstring → option ProjectConfig;
  JSON_stringify_config : ProjectConfig → jsstring;
  generateAuthUrl : jsstring → jsstring → jsstring;
  getAccessToken : Credentials → outcome (option jsstring * Credentials);
  getTokenInfo : jsstring → outcome unit;
  getToken : jsstring → jsstring → outcome Credentials;
  ephemeral_port : outcome Z;
  randomBytes_hex : jsstring;
  open_url : jsstring → outcome unit;
  incoming : option IncomingMessage;
  new_URL_searchParams : jsstring → jsstring → option URLSearchParams;
  post_loadCodeAssist :
    option jsstring → option jsstring → outcome (FetchResponse ProjectSetupResponse);
  post_onboardUser :
    option jsstring → option jsstring → outcome (FetchResponse OnboardUserResult);
  post_generateContent :
    option jsstring → jsstring → jsstring → outcome (FetchResponse GenerateContentResult);
  sendMessage : jsstring → jsstring → outcome EnhancedResponse;
}.

(** What the listener writes back to the browser. *)
Inductive reply :=
| Redirect (location : jsstring)
| Body (message : jsstring).

(** Observable calls, most recent first in the log. *)
Inductive event :=
| CallGetAccessToken
| CallGetTokenInfo (token : jsstring)
| CallGetToken (code redirect_uri : jsstring)
| CallFetch (endpoint : jsstring)
| CallSendMessage (query : jsstring)
| ServerListen (port : Z)
| ServerClose
| ServerReply (r : reply)
| OpenBrowser (url : jsstring).

(** Calls that leave the machine. *)
Definition is_network_call (e : event) : bool :=
  match e with
  | CallGetAccessToken | CallGetTokenInfo _ | CallGetToken _ _
  | CallFetch _ | CallSendMessage _ => true
  | _ => false
  end.

(** A path holds a regular file or cannot be accessed. *)
Inductive fnode :=
| File (data : jsstring)
| Denied.

(** The mutable state: the file system, the call log, the one
    [OAuth2Client] object alive (its [credentials]), and the fields of
    the [GoogleWebSearchMCP] instance.  [this_oauthClient] tells whether
    [this.oauthClient] refers to the client object; [this_model] holds the
    API key the model was built with. *)
Record State := {
  files : gmap jsstring fnode;
  log : list event;
  client_credentials : Credentials;
  this_model : option jsstring;
  this_oauthClient : bool;
  this_projectId : option jsstring;
}.

Definition with_files (f : gmap jsstring fnode) (st : State) : State :=
  {| files := f; log := log st; client_credentials := client_credentials st;
     this_model := this_model st; this_oauthClient := this_oauthClient st;
     this_projectId := this_projectId st |}.

Definition with_log (l : list event) (st : State) : State :=
  {| files := files st; log := l; client_credentials := client_credentials st;
     this_model := this_model st; this_oauthClient := this_oauthClient st;
     this_projectId := this_projectId st |}.

Definition with_client_credentials (c : Credentials) (st : State) : State :=
  {| files := files st; log := log st; client_credentials := c;
     this_model := this_model st; this_oauthClient := this_oauthClient st;
     this_projectId := this_projectId st |}.

Definition with_this_model (m : option jsstring) (st : State) : State :=
  {| files := files st; log := log st; client_credentials := client_credentials st;
     this_model := m; this_oauthClient := this_oauthClient st;
     this_projectId := this_projectId st |}.

Definition with_this_oauthClient (b : bool) (st : State) : State :=
  {| files := files st; log := log st; client_credentials := client_credentials st;
     this_model := this_model st; this_oauthClient := b;
     this_projectId := this_projectId st |}.

Definition with_this_projectId (p : option jsstring) (st : State) : State :=
  {| files := files st; log := log st; client_credentials := client_credentials st;
     this_model := this_model st; this_oauthClient := this_oauthClient st;
     this_projectId := p |}.

(** Asynchronous code over the state. *)
Definition M (A : Type) : Type := State → outcome A * State.

Definition ret {A} (a : A) : M A := λ st, (Ok a, st).

Definition bind {A B} (m : M A) (k : A → M B) : M B :=
  λ st, match m st with
        | (Ok a, st') => k a st'
        | (Throw e, st') => (Throw e, st')
        | (Pending, st') => (Pending, st')
        end.

Notation "'let*' x := m 'in' k" := (bind m (λ x, k))
  (at level 10, x name, m at level 200, k at level 200).
Notation "m ;;; k" := (bind m (λ _, k))
  (at level 200, k at level 200, right associativity).

Definition throw {A} (message : jsstring) : M A := λ st, (Throw message, st).

(** [try { m } catch (e) { h e }] *)
Definition try_catch {A} (m : M A) (h : jsstring → M A) : M A :=
  λ st, match m st with
        | (Throw e, st') => h e st'
        | r => r
        end.

(** [try { m } finally { f }], for an [f] that does not throw. *)
Definition try_finally {A} (m : M A) (f : State → State) : M A :=
  λ st, match m st with
        | (Pending, st') => (Pending, st')
        | (r, st') => (r, f st')
        end.

Definition await {A} (o : outcome A) : M A := λ st, (o, st).

Definition emit (e : event) : M unit :=
  λ st, (Ok tt, with_log (e :: log st) st).

Definition get_state : M State := λ st, (Ok st, st).

Definition modify (f : State → State) : M unit := λ st, (Ok tt, f st).

(* ===================================================================== *)
(** ** node's [fs.promises] *)
(* ===================================================================== *)

Definition readFile (path : jsstring) : M jsstring :=
  λ st, match files st !! path with
        | Some (File data) => (Ok data, st)
        | Some Denied => (Throw (lit "EACCES: permission denied"), st)
        | None => (Throw (lit "ENOENT: no such file or directory"), st)
        end.

Definition writeFile (path data : jsstring) : M unit :=
  λ st, match files st !! path with
        | Some Denied => (Throw (lit "EACCES: permission denied"), st)
        | _ => (Ok tt, with_files (<[path := File data]> (files st)) st)
        end.

(** [fs.mkdir(dir, { recursive: true })]: fails only where something that
    is not a directory sits at [dir]. *)
Definition mkdir (dir : jsstring) : M unit :=
  λ st, match files st !! dir with
        | Some _ => (Throw (lit "EEXIST: file already exists"), st)
        | None => (Ok tt, st)
        end.

Section Program.

Variable P : Platform.

(* ===================================================================== *)
(** ** [src/oauth.ts] *)
(* ===================================================================== *)

Definition SIGN_IN_SUCCESS_URL : jsstring :=
  lit "https://developers.google.com/gemini-code-assist/auth_success_gemini".
Definition SIGN_IN_FAILURE_URL : jsstring :=
  lit "https://developers.google.com/gemini-code-assist/auth_failure_gemini".
Definition GEMINI_DIR : jsstring := lit ".gemini".
Definition CREDENTIAL_FILENAME : jsstring := lit "mcp_oauth_creds.json".

(** Methods of the [OAuth2Client] object. *)
Definition client_setCredentials (c : Credentials) : M unit :=
  modify (with_client_credentials c).

Definition client_getAccessToken : M (option jsstring) :=
  emit CallGetAccessToken ;;;
  let* st := get_state in
  let* r := await (getAccessToken P (client_credentials st)) in
  client_setCredentials r.2 ;;;
  ret r.1.

Definition client_getTokenInfo (token : jsstring) : M unit :=
  emit (CallGetTokenInfo token) ;;;
  await (getTokenInfo P token).

Definition client_getToken (code redirect_uri : jsstring) : M Credentials :=
  emit (CallGetToken code redirect_uri) ;;;
  await (getToken P code redirect_uri).

Definition getCachedCredentialPath : jsstring :=
  path_join P [homedir P; GEMINI_DIR; CREDENTIAL_FILENAME].

Definition cacheCredentials (credentials : Credentials) : M unit :=
  let filePath := getCachedCredentialPath in
  mkdir (path_dirname P filePath) ;;;
  let credString := JSON_stringify_credentials P credentials in
  writeFile filePath credString.

(** [JSON.parse] throws a [SyntaxError] on text that is not JSON. *)
Definition parse_or_throw {A} (parsed : option A) : M A :=
  match parsed with
  | Some a => ret a
  | None => throw (lit "SyntaxError: Unexpected token in JSON")
  end.

Definition loadCachedCredentials : M bool :=
  try_catch
    (let keyFile :=
       or_default (env P !! "GOOGLE_APPLICATION_CREDENTIALS"%string)
         getCachedCredentialPath in
     let* creds := readFile keyFile in
     let* parsed := parse_or_throw (JSON_parse_credentials P creds) in
     client_setCredentials parsed ;;;
     let* token := client_getAccessToken in
     match token with
     | Some (c :: t) =>
         client_getTokenInfo (c :: t) ;;;
         ret true
     | _ => ret false
     end)
    (λ _, ret false).

(** [getAvailablePort]: the port the operating system assigns to a
    listener on port 0, or the listener's error. *)
Definition getAvailablePort : M Z := await (ephemeral_port P).

(** [new url.URL(input, base).searchParams]; the constructor throws a
    [TypeError] when [input] cannot be resolved against [base]. *)
Definition new_URL (input base : jsstring) : M URLSearchParams :=
  match new_URL_searchParams P input base with
  | Some searchParams => ret searchParams
  | None => throw (lit "Invalid URL")
  end.

(** The request handler of the loopback listener, with the [port],
    [redirectUri] and [state] of the [authWithWeb] call that made it.  It
    settles [loginCompletePromise]: [Ok] is [resolve()], [Throw e] is
    [reject(e)]. *)
Definition oauth2callback (port : Z) (redirectUri state : jsstring)
    (req : IncomingMessage) : M unit :=
  try_finally
    (if negb (includes (lit "/oauth2callback") (req_url req)) then
       emit (ServerReply (Redirect SIGN_IN_FAILURE_URL)) ;;;
       throw (lit "Unexpected request: " ++ req_url req)
     else
       let* qs := new_URL (req_url req)
                    (lit "http://localhost:" ++ number_to_string port) in
       if truthy (searchParams_get qs (lit "error")) then
         emit (ServerReply (Redirect SIGN_IN_FAILURE_URL)) ;;;
         throw (lit "Error during authentication: "
                  ++ default [] (searchParams_get qs (lit "error")))
       else if bool_decide (searchParams_get qs (lit "state") ≠ Some state) then
         emit (ServerReply (Body (lit "State mismatch. Possible CSRF attack"))) ;;;
         throw (lit "State mismatch. Possible CSRF attack")
       else if truthy (searchParams_get qs (lit "code")) then
         let* tokens := client_getToken (default [] (searchParams_get qs (lit "code")))
                     redirectUri in
         client_setCredentials tokens ;;;
         let* st := get_state in
         cacheCredentials (client_credentials st) ;;;
         emit (ServerReply (Redirect SIGN_IN_SUCCESS_URL)) ;;;
         ret tt
       else
         throw (lit "No code found in request"))
    (λ st, with_log (ServerClose :: log st) st).

Record OauthWebLogin := {
  authUrl : jsstring;
  loginCompletePromise : M unit;
}.

(** [loginCompletePromise] settles when the one request the listener
    serves has been handled; with no request it stays pending. *)
Definition authWithWeb : M OauthWebLogin :=
  let* port := getAvailablePort in
  let redirectUri :=
    lit "http://localhost:" ++ number_to_string port ++ lit "/oauth2callback" in
  let state := randomBytes_hex P in
  let authUrl := generateAuthUrl P redirectUri state in
  emit (ServerListen port) ;;;
  ret {| authUrl := authUrl;
         loginCompletePromise :=
           match incoming P with
           | Some req => oauth2callback port redirectUri state req
           | None => await Pending
           end |}.

(** [new OAuth2Client] starts with empty credentials.  The function
    returns the client object, which lives in the state. *)
Definition getOauthClient : M unit :=
  client_setCredentials noCredentials ;;;
  let* cached := loadCachedCredentials in
  if cached then ret tt
  else
    let* webLogin := authWithWeb in
    emit (OpenBrowser (authUrl webLogin)) ;;;
    await (open_url P (authUrl webLogin)) ;;;
    loginCompletePromise webLogin ;;;
    ret tt.

(* ===================================================================== *)
(** ** [src/setup.ts] *)
(* ===================================================================== *)

Definition LOAD_CODE_ASSIST : jsstring :=
  lit "https://cloudcode-pa.googleapis.com/v1internal:loadCodeAssist".
Definition ONBOARD_USER : jsstring :=
  lit "https://cloudcode-pa.googleapis.com/v1internal:onboardUser".
Definition GENERATE_CONTENT : jsstring :=
  lit "https://cloudcode-pa.googleapis.com/v1internal:generateContent".

Definition configDir : jsstring := path_join P [homedir P; lit ".google-web-search"].
Definition configPath : jsstring :=
  path_join P [homedir P; lit ".google-web-search"; lit "config.json"].

Definition saveProjectConfig (projectId : jsstring) : M unit :=
  try_catch
    (mkdir configDir ;;;
     let config := {| project_id := Some projectId;
                      setup_date := Some (date_now_iso P);
                      auth_type := Some (lit "oauth") |} in
     writeFile (path_join P [configDir; lit "config.json"])
       (JSON_stringify_config P config))
    (λ _, ret tt).

Definition loadCodeAssist (projectId : option jsstring) : M ProjectSetupResponse :=
  let* token := client_getAccessToken in
  emit (CallFetch LOAD_CODE_ASSIST) ;;;
  let* response := await (post_loadCodeAssist P token projectId) in
  if negb (ok response) then
    let* errorText := await (body_text response) in
    if bool_decide (status response = 404) || bool_decide (status response = 403) then
      ret {| cloudaicompanionProject := None; userTier := None;
             onboardingRequired := Some true |}
    else
      throw (lit "Load Code Assist failed: " ++ number_to_string (status response)
               ++ lit " " ++ statusText response ++ lit " - " ++ errorText)
  else
    await (body_json response).

Definition onboardUser (projectId : option jsstring) : M (option jsstring) :=
  let* token := client_getAccessToken in
  emit (CallFetch ONBOARD_USER) ;;;
  let* response := await (post_onboardUser P token projectId) in
  if negb (ok response) then
    let* errorText := await (body_text response) in
    throw (lit "User onboarding failed: " ++ number_to_string (status response)
             ++ lit " " ++ statusText response ++ lit " - " ++ errorText)
  else
    let* result := await (body_json response) in
    ret (or_else (onboard_response_project_id result)
           (or_else (onboard_project result) projectId)).

(** The first [try] block: the project id of the environment, or the one
    of the config file when the environment has none. *)
Definition initialProjectId : M (option jsstring) :=
  let projectId := env P !! "GOOGLE_CLOUD_PROJECT"%string in
  try_catch
    (let* configData := readFile configPath in
     let* config := parse_or_throw (JSON_parse_config P configData) in
     if truthy (project_id config) && negb (truthy projectId)
     then ret (project_id config)
     else ret projectId)
    (λ _, ret projectId).

Definition setupUserProject : M jsstring :=
  let* projectId := initialProjectId in
  let* loadResult := loadCodeAssist projectId in
  let* projectId :=
    match cloudaicompanionProject loadResult with
    | Some (c :: p) =>
        saveProjectConfig (c :: p) ;;;
        ret (Some (c :: p))
    | _ => ret projectId
    end in
  let* projectId :=
    (match onboardingRequired loadResult with
     | Some true =>
         let* onboardedProjectId := onboardUser projectId in
         match onboardedProjectId with
         | Some (c :: p) =>
             saveProjectConfig (c :: p) ;;;
             ret (Some (c :: p))
         | _ => ret projectId
         end
     | _ => ret projectId
     end) in
  match projectId with
  | Some (c :: p) => ret (c :: p)
  | _ => throw (lit "GOOGLE_CLOUD_PROJECT is required")
  end.

(* ===================================================================== *)
(** ** [src/index.ts] *)
(* ===================================================================== *)

(** What both transports hand to the citation merger. *)
Record SearchData := {
  responseText : jsstring;
  sources : option (list GroundingChunkItem);
  supports : option (list GroundingSupportItem);
}.

(** What [args.query] holds when the tool is called.  [WebSearchArgs]
    declares a string, but the arguments are the JSON of the request, cast
    without a check, so any JSON value can stand there.  The handler tells
    three kinds apart, and puts the value into a template literal:
    - a string;
    - another falsy value (no such property, [null], [false], [0]), which
      a template literal shows as [shown];
    - another truthy value ([true], a number, an array, an object), which
      has no [trim] method; [shown] is [None] when the value cannot be
      converted to a string (an object whose [toString] is not a
      function). *)
Inductive QueryValue :=
| QueryString (s : jsstring)
| QueryFalsy (shown : jsstring)
| QueryTruthy (shown : option jsstring).

Record WebSearchArgs := {
  query : QueryValue;
}.

(** [`${value}`] *)
Definition template_literal (value : QueryValue) : option jsstring :=
  match value with
  | QueryString s => Some s
  | QueryFalsy shown => Some shown
  | QueryTruthy shown => shown
  end.

(** The messages of the [TypeError]s the engine throws: for [args.query]
    when [args] is [undefined], for [args.query.trim()] when the query has
    no such method, and for a value that has no string conversion. *)
Definition cannotReadQuery : jsstring :=
  lit "Cannot read properties of undefined (reading 'query')".
Definition trimIsNotAFunction : jsstring :=
  lit "args.query.trim is not a function".
Definition cannotConvert : jsstring :=
  lit "Cannot convert object to primitive value".

(** The single text item of a [CallToolResult]; an absent [isError] is
    [false]. *)
Record CallToolResult := {
  content_text : jsstring;
  isError : bool;
}.

(** [candidates?.[0]] *)
Definition first_candidate (cs : option (list Candidate)) : option Candidate :=
  cs ≫= head.

(** [candidate?.content?.parts?.[0]?.text] *)
Definition first_part_text (candidate : option Candidate) : option jsstring :=
  match candidate with
  | Some c =>
      match content_parts c with
      | Some (part_text :: _) => part_text
      | _ => None
      end
  | None => None
  end.

(** The [catch] of the OAuth branch prints and rethrows; console output
    is not modelled. *)
Definition initializeGeminiClient : M unit :=
  let apiKey :=
    or_else (env P !! "GOOGLE_API_KEY"%string) (env P !! "GEMINI_API_KEY"%string) in
  let useOAuth :=
    bool_decide (env P !! "USE_OAUTH"%string = Some (lit "true"))
    || negb (truthy apiKey) in
  if useOAuth then
    getOauthClient ;;;
    modify (with_this_oauthClient true) ;;;
    let* projectId := setupUserProject in
    modify (with_this_projectId (Some projectId))
  else
    match apiKey with
    | Some (c :: k) => modify (with_this_model (Some (c :: k)))
    | _ =>
        throw (lit "Authentication required. Either set GOOGLE_API_KEY/GEMINI_API_KEY environment variable "
                 ++ lit "or set USE_OAUTH=true to use Google login. "
                 ++ lit "Get your API key from https://makersuite.google.com/app/apikey")
    end.

Definition callCodeAssistAPI (query : jsstring) : M SearchData :=
  let* st := get_state in
  if negb (this_oauthClient st) then
    throw (lit "OAuth client not initialized")
  else
    match or_else (this_projectId st) (env P !! "GOOGLE_CLOUD_PROJECT"%string) with
    | Some (c :: p) =>
        let* token := client_getAccessToken in
        emit (CallFetch GENERATE_CONTENT) ;;;
        let* response := await (post_generateContent P token (c :: p) query) in
        if negb (ok response) then
          throw (lit "Code Assist API error: " ++ number_to_string (status response)
                   ++ lit " " ++ statusText response)
        else
          let* result := await (body_json response) in
          let candidate := first_candidate (response_candidates result) in
          let groundingMetadata := candidate ≫= groundingMetadata in
          ret {| responseText :=
                   or_default (first_part_text candidate) [];
                 sources := groundingMetadata ≫= groundingChunks;
                 supports := groundingMetadata ≫= groundingSupports |}
    | _ => throw (lit "Project ID not available. Please run setup first.")
    end.

Definition emptyQueryError : CallToolResult :=
  {| content_text := lit "Error: The query parameter cannot be empty.";
     isError := true |}.

(** Lines 141-143: the lazy initialisation at the head of the handler. *)
Definition ensureInitialized : M unit :=
  let* st := get_state in
  if negb (bool_decide (is_Some (this_model st))) && negb (this_oauthClient st)
  then initializeGeminiClient
  else ret tt.

(** [!s || s.trim() === ''] *)
Definition is_blank (s : jsstring) : bool :=
  is_empty_string s || is_empty_string (trim s).

(** [args] is [request.params.arguments]: [None] when the tool call has
    no arguments.  Both the body and the [catch] block read [args.query]. *)
Definition handleWebSearch (args : option WebSearchArgs) : M CallToolResult :=
  try_catch
    (ensureInitialized ;;;
     match args with
     | None => throw cannotReadQuery
     | Some {| query := QueryFalsy _ |} => ret emptyQueryError
     | Some {| query := QueryTruthy _ |} => throw trimIsNotAFunction
     | Some {| query := QueryString query |} =>
         if is_blank query then ret emptyQueryError
         else
           let* st := get_state in
           let* result :=
             if this_oauthClient st then callCodeAssistAPI query
             else
               match this_model st with
               | Some apiKey =>
                   emit (CallSendMessage query) ;;;
                   let* response := await (sendMessage P apiKey query) in
                   let* responseText := await (response_text response) in
                   let groundingMetadata :=
                     first_candidate (candidates response) ≫= groundingMetadata in
                   ret {| responseText := responseText;
                          sources := groundingMetadata ≫= groundingChunks;
                          supports := groundingMetadata ≫= groundingSupports |}
               | None => throw (lit "No authentication method available")
               end in
           if is_blank (responseText result) then
             ret {| content_text :=
                      lit "No search results or information found for query: "
                        ++ dquote ++ query ++ dquote;
                    isError := false |}
           else
             ret {| content_text :=
                      lit "Web search results for " ++ dquote ++ query ++ dquote
                        ++ lit ":" ++ nl ++ nl
                        ++ mergeCitations (responseText result) (sources result)
                             (supports result);
                    isError := false |}
     end)
    (λ errorMessage,
       match args with
       | None => throw cannotReadQuery
       | Some {| query := value |} =>
           match template_literal value with
           | Some query =>
               ret {| content_text :=
                        lit "Error during web search for query " ++ dquote ++ query
                          ++ dquote ++ lit ": " ++ errorMessage;
                      isError := true |}
           | None => throw cannotConvert
           end
       end).

End Program.

(* ===================================================================== *)
(** ** Where the markers are meant to be *)
(* ===================================================================== *)

(** The specification's side of the merger: the text in which every
    marker stands at the offset recorded for it.

    The markers recorded for offset [k], the one recorded last first. *)
Definition markersAt (k : Z) (insertions : list Insertion) : list jsstring :=
  reverse (map marker (filter (λ i, index i = k) insertions)).

(** The array in which every marker sits at its recorded offset of the
    original array: in front of the element that was at that offset, or
    behind the last element for the offset equal to the length.  [k] is
    the offset of the head of [chars]. *)
Fixpoint placeFrom (k : Z) (chars : list jsstring) (insertions : list Insertion)
  : list jsstring :=
  match chars with
  | [] => markersAt k insertions
  | c :: cs => markersAt k insertions ++ c :: placeFrom (k + 1) cs insertions
  end.

(** The same on the text itself. *)
Definition textWithMarkers (responseText : jsstring) (insertions : list Insertion)
  : jsstring :=
  concat (placeFrom 0 (split_chars responseText) insertions).


(** Two markers next to each other at offset [e] of the text, the one
    discovered second ([m2]) in front. *)
Definition stackedAt (responseText : jsstring) (e : Z) (m1 m2 : jsstring)
  : jsstring :=
  take (Z.to_nat e) responseText ++ m2 ++ m1 ++ drop (Z.to_nat e) responseText.

(** A support with a segment ending at [e] that refers to [indices]. *)
Definition supportEndingAt (e : Z) (indices : list Z) : GroundingSupportItem :=
  {| segment := Some {| startIndex := 0; endIndex := e; text := None |};
     groundingChunkIndices := Some indices |}.

Definition wikiChunk : GroundingChunkItem :=
  {| web := Some {| uri := Some (lit "https://wiki.example");
                    title := Some (lit "Wiki") |} |}.

Definition abcdefghij_insertions : list Insertion :=
  [ {| index := 10; marker := lit "[1]" |};
    {| index := 5; marker := lit "[2]" |};
    {| index := 2; marker := lit "[3]" |} ].

(* ===================================================================== *)
(** ** Vocabulary of the properties *)
(* ===================================================================== *)

(** The query is empty or has white space only. *)
Definition blank (query : jsstring) : Prop := forallb is_whitespace query = true.

(** The instance already has a model or an OAuth client. *)
Definition initialized (st : State) : Prop :=
  is_Some (this_model st) ∨ this_oauthClient st = true.

(** The arguments of a tool call that follows the input schema: an object
    whose [query] is a string. *)
Definition queryArgs (query : jsstring) : option WebSearchArgs :=
  Some {| query := QueryString query |}.

(** What the handler answers when something was thrown. *)
Definition searchError (query errorMessage : jsstring) : CallToolResult :=
  {| content_text :=
       lit "Error during web search for query " ++ dquote ++ query
         ++ dquote ++ lit ": " ++ errorMessage;
     isError := true |}.

(** The calls logged by a run from [st] to [st']. *)
Definition calls_since (st st' : State) : list event :=
  take (length (log st') - length (log st)) (log st').

Definition is_token_exchange (e : event) : bool :=
  match e with
  | CallGetToken _ _ => true
  | _ => false
  end.

(** The search parameters of a request, as the handler of the listener
    on [port] reads them; [None] when the URL cannot be parsed. *)
Definition searchParamsOf (P : Platform) (port : Z) (req : IncomingMessage)
  : option URLSearchParams :=
  new_URL_searchParams P (req_url req) (lit "http://localhost:" ++ number_to_string port).

(** The credential file [loadCachedCredentials] reads. *)
Definition keyFile (P : Platform) : jsstring :=
  or_default (env P !! "GOOGLE_APPLICATION_CREDENTIALS"%string)
    (getCachedCredentialPath P).

(** The credential file is absent, unreadable, or not JSON. *)
Definition unusable_credential_file (P : Platform) (st : State) : Prop :=
  match files st !! keyFile P with
  | None | Some Denied => True
  | Some (File data) => JSON_parse_credentials P data = None
  end.

(** The project id of the config file, when it can be read and parsed. *)
Definition cachedProjectId (P : Platform) (st : State) : option jsstring :=
  match files st !! configPath P with
  | Some (File data) =>
      match JSON_parse_config P data with
      | Some config => project_id config
      | None => None
      end
  | _ => None
  end.

(** The explicitly configured project id. *)
Definition explicitProjectId (P : Platform) : option jsstring :=
  env P !! "GOOGLE_CLOUD_PROJECT"%string.

(** [projectId] as a result of [setupUserProject]. *)
Definition requireProjectId (projectId : option jsstring) : outcome jsstring :=
  match projectId with
  | Some (c :: p) => Ok (c :: p)
  | _ => Throw (lit "GOOGLE_CLOUD_PROJECT is required")
  end.

(** The state after the detected project id, if any, was saved. *)
Definition afterDetection (P : Platform) (loadResult : ProjectSetupResponse)
    (st : State) : State :=
  match cloudaicompanionProject loadResult with
  | Some (c :: p) => (saveProjectConfig P (c :: p) st).2
  | _ => st
  end.

(* ===================================================================== *)
(** ** Concrete platforms *)
(* ===================================================================== *)

#[local] Instance Credentials_eq_dec : EqDecision Credentials.
Proof. solve_decision. Defined.

(** [path.join] and [path.dirname] on plain POSIX segments. *)
Definition posix_join (segments : list jsstring) : jsstring :=
  array_join (lit "/") segments.

Fixpoint drop_to_slash (reversed : jsstring) : jsstring :=
  match reversed with
  | [] => []
  | c :: r => if (c =? 47)%N then r else drop_to_slash r
  end.

Definition posix_dirname (path : jsstring) : jsstring :=
  reverse (drop_to_slash (reverse path)).

Definition unreachable {A} : outcome A := Throw (lit "fetch failed").

(** The part of [s] before the first [sep], and the part behind it when
    there is a [sep]. *)
Fixpoint split_first (sep : N) (s : jsstring) : jsstring * option jsstring :=
  match s with
  | [] => ([], None)
  | c :: s' =>
      if (c =? sep)%N then ([], Some s')
      else let (before, after) := split_first sep s' in (c :: before, after)
  end.

(** [s.split(sep)] for a one-character separator. *)
Fixpoint split_all (sep : N) (s : jsstring) : list jsstring :=
  match s with
  | [] => [[]]
  | c :: s' =>
      if (c =? sep)%N then [] :: split_all sep s'
      else match split_all sep s' with
           | part :: parts => (c :: part) :: parts
           | [] => [[c]]
           end
  end.

(** A run of decimal digits as a number. *)
Definition decimal (digits : jsstring) : option Z :=
  foldl (λ acc c, if ((48 <=? c) && (c <=? 57))%N
                  then (λ n, 10 * n + Z.of_N (c - 48)) <$> acc
                  else None)
    (Some 0) digits.

(** The name-value pairs of a query that has nothing percent-encoded. *)
Definition query_pairs (query : jsstring) : URLSearchParams :=
  map (λ part, let (name, value) := split_first 61 part in (name, default [] value))
    (filter (λ part, part ≠ []) (split_all 38 query)).

(** [new url.URL(input, base).searchParams] for the request targets of
    the examples.  A target in origin form (/path?query) takes the
    authority of the base, and its query is split at the ampersands and
    at the first equals sign of each part.  A target that starts with two
    slashes names an authority of its own, and the constructor throws
    when the port of that authority is no number below 65536. *)
Definition target_searchParams (input base : jsstring) : option URLSearchParams :=
  let query := default [] (split_first 63 input).2 in
  match input with
  | 47%N :: 47%N :: rest =>
      let authority := (split_first 63 (split_first 47 rest).1).1 in
      match (split_first 58 authority).2 with
      | Some digits =>
          match decimal digits with
          | Some port => if port <? 65536 then Some (query_pairs query) else None
          | None => None
          end
      | None => Some (query_pairs query)
      end
  | _ => Some (query_pairs query)
  end.

(** A machine whose remote services are described by the arguments; all
    the rest is fixed.  [JSON] knows the one credentials document [doc]
    that stands for [creds]. *)
Definition machine (environment : gmap string jsstring)
    (creds : Credentials) (doc : jsstring)
    (accessToken : Credentials → outcome (option jsstring * Credentials))
    (tokenInfo : jsstring → outcome unit)
    (loadCodeAssistReply : outcome (FetchResponse ProjectSetupResponse))
    (port : outcome Z) (callback : option IncomingMessage) : Platform :=
  {| env := environment;
     homedir := lit "/home/user";
     path_join := posix_join;
     path_dirname := posix_dirname;
     date_now_iso := lit "2025-07-01T00:00:00.000Z";
     JSON_parse_credentials := λ s, if decide (s = doc) then Some creds else None;
     JSON_stringify_credentials := λ c, if decide (c = creds) then doc else lit "{}";
     JSON_parse_config := λ _, None;
     JSON_stringify_config := λ c, default [] (project_id c);
     generateAuthUrl := λ redirect state,
       lit "https://accounts.google.com/o/oauth2/v2/auth?state=" ++ state;
     getAccessToken := accessToken;
     getTokenInfo := tokenInfo;
     getToken := λ _ _, unreachable;
     ephemeral_port := port;
     randomBytes_hex := lit "5f2b";
     open_url := λ _, Ok tt;
     incoming := callback;
     new_URL_searchParams := target_searchParams;
     post_loadCodeAssist := λ _ _, loadCodeAssistReply;
     post_onboardUser := λ _ _, unreachable;
     post_generateContent := λ _ _ _, unreachable;
     sendMessage := λ _ _, unreachable |}.

Definition someCredentials : Credentials :=
  {| access_token := Some (lit "ya29.token"); refresh_token := Some (lit "1//refresh");
     expiry_date := Some 1751328000000; scope := None;
     token_type := Some (lit "Bearer"); id_token := None |}.

(** The text [JSON.stringify(someCredentials, null, 2)] writes. *)
Definition someCredentialsDoc : jsstring :=
  lit "{" ++ nl
  ++ lit "  " ++ dquote ++ lit "access_token" ++ dquote ++ lit ": "
     ++ dquote ++ lit "ya29.token" ++ dquote ++ lit "," ++ nl
  ++ lit "  " ++ dquote ++ lit "refresh_token" ++ dquote ++ lit ": "
     ++ dquote ++ lit "1//refresh" ++ dquote ++ lit "," ++ nl
  ++ lit "  " ++ dquote ++ lit "expiry_date" ++ dquote ++ lit ": 1751328000000," ++ nl
  ++ lit "  " ++ dquote ++ lit "token_type" ++ dquote ++ lit ": "
     ++ dquote ++ lit "Bearer" ++ dquote ++ nl
  ++ lit "}".

(** A fresh process on an empty disk. *)
Definition freshState : State :=
  {| files := ∅; log := []; client_credentials := noCredentials;
     this_model := None; this_oauthClient := false; this_projectId := None |}.

Definition jsonReply {B} (b : B) : FetchResponse B :=
  {| ok := true; status := 200; statusText := lit "OK";
     body_text := Ok []; body_json := Ok b |}.

Definition validToken (c : Credentials) : outcome (option jsstring * Credentials) :=
  Ok (access_token c, c).

(** No network at all, no port to listen on. *)
Definition offline : Platform :=
  machine ∅ someCredentials someCredentialsDoc (λ _, unreachable) (λ _, unreachable)
    unreachable (Throw (lit "listen EACCES")) None.

(** Cached credentials are valid and discovery answers with a project. *)
Definition online (environment : gmap string jsstring) : Platform :=
  machine environment someCredentials someCredentialsDoc validToken (λ _, Ok tt)
    (Ok (jsonReply {| cloudaicompanionProject := Some (lit "remote-project");
                      userTier := None; onboardingRequired := None |}))
    (Ok 43210) None.

(** The same, but discovery knows no project. *)
Definition onlineWithoutProject (environment : gmap string jsstring) : Platform :=
  machine environment someCredentials someCredentialsDoc validToken (λ _, Ok tt)
    (Ok (jsonReply {| cloudaicompanionProject := None;
                      userTier := None; onboardingRequired := None |}))
    (Ok 43210) None.

Definition explicitEnv : gmap string jsstring :=
  {[ "GOOGLE_CLOUD_PROJECT"%string := lit "explicit-project" ]}.

(** The disk after an earlier login on [online]. *)
Definition loggedInState : State :=
  with_files {[ lit "/home/user/.gemini/mcp_oauth_creds.json" := File someCredentialsDoc ]}
    freshState.

(** A callback that carries both an [error] and a foreign [state]. *)
Definition deniedCallback : IncomingMessage :=
  {| req_url := lit "/oauth2callback?error=access_denied&state=forged" |}.

(** A callback with a foreign [state] and a code. *)
Definition forgedCallback : IncomingMessage :=
  {| req_url := lit "/oauth2callback?code=4/abc&state=forged" |}.

Definition csrfMismatch : jsstring := lit "State mismatch. Possible CSRF attack".

(* ===================================================================== *)
(** ** The rest of [src/oauth.ts] and [src/setup.ts] *)
(* ===================================================================== *)

(** [fs.rm(path)] *)
Definition rm (path : jsstring) : M unit :=
  λ st, match files st !! path with
        | Some (File _) => (Ok tt, with_files (delete path (files st)) st)
        | Some Denied => (Throw (lit "EACCES: permission denied"), st)
        | None => (Throw (lit "ENOENT: no such file or directory"), st)
        end.

Definition clearCachedCredentialFile (P : Platform) : M unit :=
  try_catch (rm (getCachedCredentialPath P)) (λ _, ret tt).

Definition serviceEndpoint (projectId : jsstring) : jsstring :=
  lit "https://serviceusage.googleapis.com/v1/projects/" ++ projectId
    ++ lit "/services/cloudaicompanion.googleapis.com".

(** [checkApiEnabled].  [get] is the Service Usage endpoint reached
    through [fetch]: it takes the URL and the bearer token, and the JSON
    body it answers with is read for its [state] field. *)
Definition checkApiEnabled (P : Platform)
    (get : jsstring → option jsstring → outcome (FetchResponse (option jsstring)))
    (projectId : jsstring) : M bool :=
  try_catch
    (let endpoint := serviceEndpoint projectId in
     emit (CallFetch endpoint) ;;;
     let* response := await (get endpoint (env P !! "GOOGLE_ACCESS_TOKEN"%string)) in
     if ok response then
       let* result := await (body_json response) in
       ret (bool_decide (result = Some (lit "ENABLED")))
     else ret false)
    (λ _, ret false).

(* ===================================================================== *)
(** ** The command line client (the second half of [src/index.ts]) *)
(* ===================================================================== *)

(** What a run of the client leaves behind: the lines written with
    [console.log] and [console.error] by [search] and [main], and the
    code given to [process.exit], if it was called. *)
Record CliRun := {
  stdout : list jsstring;
  stderr : list jsstring;
  exitCode : option Z;
}.

(** [GoogleSearchCLI.callCodeAssistAPI]: as the server's, but the body of
    a failed response is read and reported. *)
Definition cli_callCodeAssistAPI (P : Platform) (query : jsstring) : M SearchData :=
  let* st := get_state in
  if negb (this_oauthClient st) then
    throw (lit "OAuth client not initialized")
  else
    match or_else (this_projectId st) (env P !! "GOOGLE_CLOUD_PROJECT"%string) with
    | Some (c :: p) =>
        let* token := client_getAccessToken P in
        emit (CallFetch GENERATE_CONTENT) ;;;
        let* response := await (post_generateContent P token (c :: p) query) in
        if negb (ok response) then
          let* errorText := await (body_text response) in
          throw (lit "Code Assist API error: " ++ number_to_string (status response)
                   ++ lit " " ++ statusText response ++ lit " - " ++ errorText)
        else
          let* result := await (body_json response) in
          let candidate := first_candidate (response_candidates result) in
          let groundingMetadata := candidate ≫= groundingMetadata in
          ret {| responseText := or_default (first_part_text candidate) [];
                 sources := groundingMetadata ≫= groundingChunks;
                 supports := groundingMetadata ≫= groundingSupports |}
    | _ => throw (lit "Project ID not available. Please run setup first.")
    end.

(** [GoogleSearchCLI.search].  Its lazy initialisation is the text of the
    server's, [ensureInitialized]. *)
Definition cli_search (P : Platform) (query : jsstring) : M CliRun :=
  try_catch
    (ensureInitialized P ;;;
     if is_blank query then
       ret {| stdout := [];
              stderr := [lit "Error: The query parameter cannot be empty."];
              exitCode := Some 1 |}
     else
       let* st := get_state in
       let* result :=
         if this_oauthClient st then cli_callCodeAssistAPI P query
         else
           match this_model st with
           | Some apiKey =>
               emit (CallSendMessage query) ;;;
               let* response := await (sendMessage P apiKey query) in
               let* responseText := await (response_text response) in
               let groundingMetadata :=
                 first_candidate (candidates response) ≫= groundingMetadata in
               ret {| responseText := responseText;
                      sources := groundingMetadata ≫= groundingChunks;
                      supports := groundingMetadata ≫= groundingSupports |}
           | None => throw (lit "No authentication method available")
           end in
       if is_blank (responseText result) then
         ret {| stdout :=
                  [lit "No search results or information found for query: "
                     ++ dquote ++ query ++ dquote];
                stderr := []; exitCode := None |}
       else
         ret {| stdout :=
                  [lit "Web search results for " ++ dquote ++ query ++ dquote
                     ++ lit ":" ++ nl ++ nl
                     ++ mergeCitations (responseText result) (sources result)
                          (supports result)];
                stderr := []; exitCode := None |})
    (λ errorMessage,
       ret {| stdout := [];
              stderr := [lit "Error during web search for query " ++ dquote ++ query
                           ++ dquote ++ lit ": " ++ errorMessage];
              exitCode := Some 1 |}).

(** [new GoogleSearchCLI()]: all fields are [null]. *)
Definition new_GoogleSearchCLI (st : State) : State :=
  with_this_model None (with_this_oauthClient false (with_this_projectId None st)).

(** [main], given [process.argv.slice(2)]. *)
Definition cli_main (P : Platform) (args : list jsstring) : M CliRun :=
  match args with
  | [] =>
      ret {| stdout := [lit "Usage: gsearch <query>";
                        lit "Example: gsearch " ++ dquote
                          ++ lit "latest news about AI" ++ dquote];
             stderr := []; exitCode := Some 1 |}
  | _ =>
      let query := array_join (lit " ") args in
      modify new_GoogleSearchCLI ;;;
      cli_search P query
  end.

(* ===================================================================== *)
(** ** More vocabulary *)
(* ===================================================================== *)

(** The total length of the markers of a list of insertions. *)
Definition markersLength (insertions : list Insertion) : nat :=
  sum_list (map (λ i, length (marker i)) insertions).

(** A support the merger gets no marker text from: it has no segment, no
    chunk index list, or an empty one. *)
Definition cites_nothing (support : GroundingSupportItem) : Prop :=
  segment support = None ∨ groundingChunkIndices support = None
  ∨ groundingChunkIndices support = Some [].

Definition noResults (query : jsstring) : CallToolResult :=
  {| content_text :=
       lit "No search results or information found for query: "
         ++ dquote ++ query ++ dquote;
     isError := false |}.

Definition searchResults (query merged : jsstring) : CallToolResult :=
  {| content_text :=
       lit "Web search results for " ++ dquote ++ query ++ dquote
         ++ lit ":" ++ nl ++ nl ++ merged;
     isError := false |}.

(** The handler's answer to what a transport returned. *)
Definition answer (query : jsstring) (data : SearchData) : CallToolResult :=
  if is_blank (responseText data) then noResults query
  else searchResults query
         (mergeCitations (responseText data) (sources data) (supports data)).

(** What the server reads from a Code Assist body. *)
Definition searchDataOf (result : GenerateContentResult) : SearchData :=
  let candidate := first_candidate (response_candidates result) in
  {| responseText := or_default (first_part_text candidate) [];
     sources := (candidate ≫= groundingMetadata) ≫= groundingChunks;
     supports := (candidate ≫= groundingMetadata) ≫= groundingSupports |}.

(** The fields of the instance. *)
Definition session_of (st : State) : option jsstring * bool * option jsstring :=
  (this_model st, this_oauthClient st, this_projectId st).

(** [m] never changes the fields of the instance. *)
Definition keeps_session {A} (m : M A) : Prop :=
  ∀ st, session_of (m st).2 = session_of st.

(** [m] changes no file other than [path]. *)
Definition writes_only {A} (path : jsstring) (m : M A) : Prop :=
  ∀ st other, other ≠ path → files (m st).2 !! other = files st !! other.

(** From [st] to [st'] the fields of the instance are the same, and so
    is every file that is not in [allowed]. *)
Definition unchanged_but (allowed : list jsstring) (st st' : State) : Prop :=
  session_of st' = session_of st
  ∧ ∀ other, other ∉ allowed → files st' !! other = files st !! other.

Definition respects {A} (allowed : list jsstring) (m : M A) : Prop :=
  ∀ st, unchanged_but allowed st (m st).2.

(** The config file as [saveProjectConfig] names it. *)
Definition savedConfigPath (P : Platform) : jsstring :=
  path_join P [configDir P; lit "config.json"].

(** The config [saveProjectConfig] writes for [projectId]. *)
Definition configOf (P : Platform) (projectId : jsstring) : ProjectConfig :=
  {| project_id := Some projectId;
     setup_date := Some (date_now_iso P);
     auth_type := Some (lit "oauth") |}.

(** The server runs on the OAuth transport: USE_OAUTH is 'true' or no API
    key is configured. *)
Definition useOAuth (P : Platform) : bool :=
  bool_decide (env P !! "USE_OAUTH"%string = Some (lit "true"))
  || negb (truthy (or_else (env P !! "GOOGLE_API_KEY"%string)
                     (env P !! "GEMINI_API_KEY"%string))).

Definition projectIdMissing : jsstring :=
  lit "Project ID not available. Please run setup first.".

(** The redirect URI of a listener on [port]. *)
Definition redirectUriOf (port : Z) : jsstring :=
  lit "http://localhost:" ++ number_to_string port ++ lit "/oauth2callback".

(** The state in which [getOauthClient] looks for cached credentials. *)
Definition freshClient (st : State) : State := with_client_credentials noCredentials st.

(* ===================================================================== *)
(** ** More concrete platforms *)
(* ===================================================================== *)

#[local] Instance ProjectConfig_eq_dec : EqDecision ProjectConfig.
Proof. solve_decision. Defined.

Definition remoteConfig : ProjectConfig :=
  {| project_id := Some (lit "remote-project");
     setup_date := Some (lit "2025-07-01T00:00:00.000Z");
     auth_type := Some (lit "oauth") |}.

(** The text [JSON.stringify(remoteConfig, null, 2)] writes. *)
Definition remoteConfigDoc : jsstring :=
  lit "{" ++ nl
  ++ lit "  " ++ dquote ++ lit "project_id" ++ dquote ++ lit ": "
     ++ dquote ++ lit "remote-project" ++ dquote ++ lit "," ++ nl
  ++ lit "  " ++ dquote ++ lit "setup_date" ++ dquote ++ lit ": "
     ++ dquote ++ lit "2025-07-01T00:00:00.000Z" ++ dquote ++ lit "," ++ nl
  ++ lit "  " ++ dquote ++ lit "auth_type" ++ dquote ++ lit ": "
     ++ dquote ++ lit "oauth" ++ dquote ++ nl
  ++ lit "}".

(** A machine with valid tokens whose browser callback, token exchange
    and remote answers are the arguments; [JSON] knows the credentials
    document and the config document above. *)
Definition workstation (environment : gmap string jsstring)
    (callback : option IncomingMessage) (tokens : outcome Credentials)
    (loadCodeAssistReply : outcome (FetchResponse ProjectSetupResponse))
    (onboardUserReply : outcome (FetchResponse OnboardUserResult))
    (generateContentReply : outcome (FetchResponse GenerateContentResult))
    (chatReply : outcome EnhancedResponse) : Platform :=
  {| env := environment;
     homedir := lit "/home/user";
     path_join := posix_join;
     path_dirname := posix_dirname;
     date_now_iso := lit "2025-07-01T00:00:00.000Z";
     JSON_parse_credentials :=
       λ s, if decide (s = someCredentialsDoc) then Some someCredentials else None;
     JSON_stringify_credentials :=
       λ c, if decide (c = someCredentials) then someCredentialsDoc else lit "{}";
     JSON_parse_config :=
       λ s, if decide (s = remoteConfigDoc) then Some remoteConfig else None;
     JSON_stringify_config :=
       λ c, if decide (c = remoteConfig) then remoteConfigDoc else lit "{}";
     generateAuthUrl := λ redirect state,
       lit "https://accounts.google.com/o/oauth2/v2/auth?state=" ++ state;
     getAccessToken := validToken;
     getTokenInfo := λ _, Ok tt;
     getToken := λ _ _, tokens;
     ephemeral_port := Ok 43210;
     randomBytes_hex := lit "5f2b";
     open_url := λ _, Ok tt;
     incoming := callback;
     new_URL_searchParams := target_searchParams;
     post_loadCodeAssist := λ _ _, loadCodeAssistReply;
     post_onboardUser := λ _ _, onboardUserReply;
     post_generateContent := λ _ _ _, generateContentReply;
     sendMessage := λ _ _, chatReply |}.

(** The browser comes back with the generated state and a code. *)
Definition goodCallback : IncomingMessage :=
  {| req_url := lit "/oauth2callback?code=4/abc&state=5f2b" |}.

(** The generated state, but neither a code nor an error. *)
Definition emptyCallback : IncomingMessage :=
  {| req_url := lit "/oauth2callback?state=5f2b" |}.

(** The browser asks for the site icon first. *)
Definition faviconRequest : IncomingMessage :=
  {| req_url := lit "/favicon.ico" |}.

(** A callback whose target names another authority with a port that is
    no port; it carries a code and a foreign state. *)
Definition malformedCallback : IncomingMessage :=
  {| req_url := lit "//x:99999/oauth2callback?code=4/abc&state=forged" |}.

Definition httpError {B} (code : Z) (reason : jsstring) : FetchResponse B :=
  {| ok := false; status := code; statusText := reason;
     body_text := Ok (lit "denied"); body_json := Throw (lit "SyntaxError") |}.

(** A Code Assist answer with a text and nothing else. *)
Definition plainAnswer (t : jsstring) : GenerateContentResult :=
  {| response_candidates :=
       Some [ {| content_parts := Some [Some t]; groundingMetadata := None |} ] |}.

(** An instance whose OAuth client is set, and one whose model is. *)
Definition oauthSession : State := with_this_oauthClient true loggedInState.
Definition keySession : State := with_this_model (Some (lit "AIza-key")) freshState.

(** What the generative-ai SDK answers with: a text and no grounding. *)
Definition chatAnswer (t : jsstring) : EnhancedResponse :=
  {| response_text := Ok t; candidates := None |}.

(** A workstation that only answers the chat of the key transport. *)
Definition chatStation (t : jsstring) : Platform :=
  workstation ∅ None unreachable unreachable unreachable unreachable (Ok (chatAnswer t)).

(** A workstation that only answers [generateContent]. *)
Definition assistStation (environment : gmap string jsstring)
    (reply : FetchResponse GenerateContentResult) : Platform :=
  workstation environment None unreachable unreachable unreachable (Ok reply) unreachable.

(** A workstation whose browser comes back with [callback] and whose
    token exchange gives [tokens]. *)
Definition loginStation (callback : option IncomingMessage)
    (tokens : outcome Credentials) : Platform :=
  workstation ∅ callback tokens unreachable unreachable unreachable unreachable.

(** Valid cached credentials, but discovery knows no project. *)
Definition setupFailingStation : Platform :=
  workstation ∅ None unreachable
    (Ok (jsonReply {| cloudaicompanionProject := None; userTier := None;
                      onboardingRequired := None |}))
    unreachable unreachable unreachable.

(** Discovery answers with HTTP [code]; onboarding names no project. *)
Definition discoveryStation (environment : gmap string jsstring) (code : Z) : Platform :=
  workstation environment None unreachable
    (Ok (httpError code (lit "Not Found")))
    (Ok (jsonReply {| onboard_response_project_id := None; onboard_project := None |}))
    unreachable unreachable.

(** The Service Usage endpoint of a project whose API is enabled. *)
Definition enabledService (endpoint : jsstring) (token : option jsstring)
  : outcome (FetchResponse (option jsstring)) :=
  Ok (jsonReply (Some (lit "ENABLED"))).

(** A workstation with an API key configured. *)
Definition keyStation (t : jsstring) : Platform :=
  workstation {[ "GEMINI_API_KEY"%string := lit "AIza-key" ]} None
    unreachable unreachable unreachable unreachable (Ok (chatAnswer t)).

(* ===================================================================== *)
(** * Properties *)
(* ===================================================================== *)

(** ** Strings and arrays *)

Lemma array_join_empty_sep (l : list jsstring) : array_join [] l = concat l.
Proof.
  induction l as [|x [|y l] IH]; simpl in *.
  - reflexivity.
  - by rewrite app_nil_r.
  - by rewrite IH.
Qed.

Lemma trim_start_all_whitespace (s : jsstring) :
  forallb is_whitespace s = true → trim_start s = [].
Proof.
  induction s as [|c s IH]; simpl; [done|].
  intros [Hc Hs]%andb_prop. rewrite Hc. auto.
Qed.

Lemma trim_start_nil_inv (s : jsstring) :
  trim_start s = [] → forallb is_whitespace s = true.
Proof.
  induction s as [|c s IH]; simpl; [done|].
  destruct (is_whitespace c); [auto | done].
Qed.

Lemma trim_start_head (s : jsstring) c t :
  trim_start s = c :: t → is_whitespace c = false.
Proof.
  induction s as [|d s IH]; simpl; [done|].
  destruct (is_whitespace d) eqn:E; [auto|].
  intros [= <- _]. done.
Qed.

Lemma forallb_reverse (f : N → bool) (s : jsstring) :
  forallb f (reverse s) = forallb f s.
Proof.
  induction s as [|c s IH]; [done|].
  rewrite reverse_cons, forallb_app, IH. simpl. rewrite andb_true_r.
  apply andb_comm.
Qed.

(** [trim] leaves nothing exactly when every code unit is white space. *)
Lemma trim_empty_iff (s : jsstring) :
  trim s = [] ↔ forallb is_whitespace s = true.
Proof.
  unfold trim. split.
  - intros H. apply (f_equal reverse) in H. rewrite reverse_involutive in H.
    change (reverse []) with (@nil N) in H.
    apply trim_start_nil_inv in H. rewrite forallb_reverse in H.
    destruct (trim_start s) as [|c t] eqn:E.
    + by apply trim_start_nil_inv.
    + apply trim_start_head in E. simpl in H. rewrite E in H. done.
  - intros H. by rewrite (trim_start_all_whitespace s H).
Qed.

Lemma is_blank_iff (s : jsstring) :
  is_blank s = true ↔ forallb is_whitespace s = true.
Proof.
  unfold is_blank. rewrite orb_true_iff. split.
  - intros [H|H].
    + by destruct s.
    + apply trim_empty_iff. by destruct (trim s).
  - intros H. right. apply trim_empty_iff in H. by rewrite H.
Qed.

(** ** [splice] *)

Lemma splice_length {X} (arr : list X) start item :
  length (splice arr start item) = S (length arr).
Proof.
  unfold splice. rewrite length_app. simpl.
  rewrite length_take, length_drop. lia.
Qed.



(** A start past the end is the end. *)
Lemma splice_past_end {X} (arr : list X) start item :
  Z.of_nat (length arr) ≤ start → splice arr start item = arr ++ [item].
Proof.
  intros H. unfold splice, splice_start.
  destruct (Z.ltb_spec start 0); [lia|].
  rewrite Nat.min_r by lia.
  by rewrite take_ge, drop_ge by lia.
Qed.


(** ** The stable sort *)


Lemma sort_insert_perm (x : Insertion) l :
  sort_insert byIndexDescending x l ≡ₚ x :: l.
Proof.
  induction l as [|y l IH]; simpl; [done|].
  destruct (_ <=? _); [done|].
  rewrite IH. apply Permutation_swap.
Qed.

Lemma array_sort_perm (l : list Insertion) :
  array_sort byIndexDescending l ≡ₚ l.
Proof.
  induction l as [|x l IH]; simpl; [done|].
  fold (array_sort byIndexDescending l).
  by rewrite sort_insert_perm, IH.
Qed.





(** ** Markers at their recorded offsets *)









(** ** Insertions past the end of the text *)





(** ** The citation merger *)

Lemma concat_split_chars (s : jsstring) : concat (split_chars s) = s.
Proof. induction s as [|c s IH]; simpl; [done | by rewrite IH]. Qed.

Lemma take_split_chars (k : nat) (s : jsstring) :
  take k (split_chars s) = split_chars (take k s).
Proof. unfold split_chars. apply firstn_map. Qed.

Lemma drop_split_chars (k : nat) (s : jsstring) :
  drop k (split_chars s) = split_chars (drop k s).
Proof. unfold split_chars. apply skipn_map. Qed.

Lemma sourceListFormatted_nonempty s srcs :
  bool_decide (0 < length (sourceListFormatted (s :: srcs)))%nat = true.
Proof. apply bool_decide_eq_true. unfold sourceListFormatted. simpl. lia. Qed.

(** C3. The scenario of the specification: the text "Paris is the
    capital." with one support over [0,21) citing chunk 0 and the one
    chunk "Wiki" at https://wiki.example is merged into the text followed
    by the marker [1], an empty line, the heading "Sources:" and the line
    "[1] Wiki (https://wiki.example)". *)
Theorem paris_scenario :
  mergeCitations (lit "Paris is the capital.")
    (Some [wikiChunk])
    (Some [ {| segment := Some {| startIndex := 0; endIndex := 21; text := None |};
               groundingChunkIndices := Some [0] |} ])
  = lit "Paris is the capital.[1]" ++ nl ++ nl ++ lit "Sources:" ++ nl
      ++ lit "[1] Wiki (https://wiki.example)".
Proof. vm_compute. reflexivity. Qed.

(** C7. With no grounding chunk (the list is empty, or absent) the merger
    returns the response text as it is, whatever the supports are: no
    marker is inserted and no "Sources:" block is appended. *)
Theorem no_chunks_no_change (responseText : jsstring)
    (groundingSupports : option (list GroundingSupportItem)) :
  mergeCitations responseText (Some []) groundingSupports = responseText
  ∧ mergeCitations responseText None groundingSupports = responseText.
Proof. split; reflexivity. Qed.




Example abcdefghij_markers :
  textWithMarkers (lit "abcdefghij") abcdefghij_insertions
  = lit "ab[3]cde[2]fghij[1]".
Proof. vm_compute. reflexivity. Qed.

Lemma collectInsertions_pair seg1 seg2 indices1 indices2 :
  collectInsertions
    [ {| segment := Some seg1; groundingChunkIndices := Some indices1 |};
      {| segment := Some seg2; groundingChunkIndices := Some indices2 |} ]
  = [ {| index := endIndex seg1; marker := citationMarker indices1 |};
      {| index := endIndex seg2; marker := citationMarker indices2 |} ].
Proof. reflexivity. Qed.

(** Two insertions at one offset of the text: the second is spliced in
    front of the first. *)
Lemma insertMarkers_shared_end (responseText : jsstring) seg1 seg2 indices1 indices2 :
  endIndex seg1 = endIndex seg2 →
  0 ≤ endIndex seg1 ≤ Z.of_nat (length responseText) →
  insertMarkers responseText
    [ {| segment := Some seg1; groundingChunkIndices := Some indices1 |};
      {| segment := Some seg2; groundingChunkIndices := Some indices2 |} ]
  = stackedAt responseText (endIndex seg1)
      (citationMarker indices1) (citationMarker indices2).
Proof.
  intros He Hr. unfold insertMarkers, stackedAt.
  rewrite collectInsertions_pair, array_join_empty_sep.
  simpl. unfold byIndexDescending at 1. simpl.
  replace (endIndex seg2 - endIndex seg1 <=? 0) with true
    by (symmetry; apply Z.leb_le; lia).
  simpl. rewrite <- He.
  set (e := endIndex seg1) in *. set (k := Z.to_nat e).
  assert (Hk : (k ≤ length (split_chars responseText))%nat)
    by (unfold split_chars; rewrite length_map; lia).
  assert (H1 : ∀ m (arr : list jsstring), (k ≤ length arr)%nat →
               splice arr e m = take k arr ++ m :: drop k arr).
  { intros m arr Ha. unfold splice, splice_start.
    destruct (Z.ltb_spec e 0); [lia|].
    by rewrite Nat.min_l by lia. }
  rewrite (H1 _ (split_chars responseText)) by done.
  rewrite H1 by (rewrite length_app, length_take; simpl; lia).
  rewrite take_app_le, drop_app_ge by (rewrite length_take; lia).
  rewrite take_take, Nat.min_id, length_take, Nat.min_l by done.
  replace (k - k)%nat with 0%nat by lia. rewrite drop_0.
  rewrite concat_app. simpl.
  rewrite take_split_chars, drop_split_chars, !concat_split_chars.
  reflexivity.
Qed.

(** C5, as the code has it.  For a text, a non-empty chunk list and two
    supports whose segments end at the same offset of the text
    (0 <= endIndex <= length), the merger returns the text with both
    markers next to each other at that offset, the marker of the support
    discovered second in front of the marker of the first, followed by the
    source list. *)
Theorem shared_endIndex_stacks_in_reverse_discovery_order
    (responseText : jsstring) (s : GroundingChunkItem)
    (srcs : list GroundingChunkItem) seg1 seg2 indices1 indices2 :
  endIndex seg1 = endIndex seg2 →
  0 ≤ endIndex seg1 ≤ Z.of_nat (length responseText) →
  mergeCitations responseText (Some (s :: srcs))
    (Some [ {| segment := Some seg1; groundingChunkIndices := Some indices1 |};
            {| segment := Some seg2; groundingChunkIndices := Some indices2 |} ])
  = stackedAt responseText (endIndex seg1)
      (citationMarker indices1) (citationMarker indices2)
    ++ sourcesBlock (s :: srcs).
Proof.
  intros He Hr. unfold mergeCitations.
  rewrite sourceListFormatted_nonempty.
  by rewrite insertMarkers_shared_end.
Qed.

Lemma shared_endIndex_witness :
  mergeCitations (lit "Hello world") (Some [wikiChunk; wikiChunk])
    (Some [supportEndingAt 5 [0]; supportEndingAt 5 [1]])
  = stackedAt (lit "Hello world") 5 (citationMarker [0]) (citationMarker [1])
    ++ sourcesBlock [wikiChunk; wikiChunk].
Proof.
  apply (shared_endIndex_stacks_in_reverse_discovery_order
           (lit "Hello world") wikiChunk [wikiChunk]
           {| startIndex := 0; endIndex := 5; text := None |}
           {| startIndex := 0; endIndex := 5; text := None |} [0] [1]).
  - reflexivity.
  - vm_compute. split; discriminate.
Defined.

Example shared_endIndex_5 :
  stackedAt (lit "Hello world") 5 (citationMarker [0]) (citationMarker [1])
  = lit "Hello[2][1] world".
Proof. vm_compute. reflexivity. Qed.

(** C5 as stated fails: two supports that share an endIndex past the end
    of the text have their markers appended in discovery order, not in
    reverse-discovery order. *)
Lemma shared_endIndex_past_the_end_keeps_discovery_order :
  mergeCitations (lit "abc") (Some [wikiChunk; wikiChunk])
    (Some [supportEndingAt 10 [0]; supportEndingAt 10 [1]])
  = lit "abc[1][2]" ++ sourcesBlock [wikiChunk; wikiChunk]
  ∧ mergeCitations (lit "abc") (Some [wikiChunk; wikiChunk])
      (Some [supportEndingAt 10 [0]; supportEndingAt 10 [1]])
    ≠ stackedAt (lit "abc") 10 (citationMarker [0]) (citationMarker [1])
      ++ sourcesBlock [wikiChunk; wikiChunk].
Proof. split; [vm_compute; reflexivity | vm_compute; discriminate]. Qed.



Example insertion_past_the_end_abc :
  array_join []
    (applyInsertions (split_chars (lit "abc"))
       (array_sort byIndexDescending
          [ {| index := 1; marker := lit "[1]" |}; {| index := 7; marker := lit "[2]" |} ]))
  = lit "a[1]bc[2]".
Proof. vm_compute. reflexivity. Qed.

(** ** The monad *)

#[local] Arguments lit : simpl never.

Lemma bind_ok {A B} (m : M A) (k : A → M B) st a st' :
  m st = (Ok a, st') → bind m k st = k a st'.
Proof. intros H. unfold bind. by rewrite H. Qed.

Lemma bind_throw {A B} (m : M A) (k : A → M B) st e st' :
  m st = (Throw e, st') → bind m k st = (Throw e, st').
Proof. intros H. unfold bind. by rewrite H. Qed.

Lemma bind_pending {A B} (m : M A) (k : A → M B) st st' :
  m st = (Pending, st') → bind m k st = (Pending, st').
Proof. intros H. unfold bind. by rewrite H. Qed.

(** A [try] whose handler returns never throws. *)
Lemma try_catch_returns {A} (m : M A) (a : A) st :
  ∀ e st', try_catch m (λ _, ret a) st ≠ (Throw e, st').
Proof.
  intros e st'. unfold try_catch, ret.
  destruct (m st) as [[b|e'|] st'']; congruence.
Qed.

(** ** The credential cache *)

(** C9. Loading the cached credentials never throws; and when the
    credential file is absent, cannot be read or does not hold JSON, it
    returns false and leaves everything as it was. *)
Theorem loadCachedCredentials_never_throws (P : Platform) (st : State) :
  (∀ e st', loadCachedCredentials P st ≠ (Throw e, st'))
  ∧ (unusable_credential_file P st → loadCachedCredentials P st = (Ok false, st)).
Proof.
  split.
  - apply try_catch_returns.
  - unfold unusable_credential_file, loadCachedCredentials, keyFile.
    unfold try_catch, bind, readFile, parse_or_throw, ret, throw.
    destruct (files st !! _) as [[data|]|]; [|done..].
    intros ->. done.
Qed.

Lemma loadCachedCredentials_witness :
  loadCachedCredentials offline freshState = (Ok false, freshState).
Proof.
  apply (loadCachedCredentials_never_throws offline freshState).
  vm_compute. exact I.
Defined.

Lemma cacheCredentials_writes (P : Platform) (st : State) (creds : Credentials) :
  files st !! path_dirname P (getCachedCredentialPath P) = None →
  files st !! getCachedCredentialPath P ≠ Some Denied →
  cacheCredentials P creds st
  = (Ok tt, with_files (<[getCachedCredentialPath P :=
                            File (JSON_stringify_credentials P creds)]> (files st)) st).
Proof.
  intros Hdir Hfile. unfold cacheCredentials, bind, mkdir, writeFile.
  rewrite Hdir. destruct (files st !! getCachedCredentialPath P) as [[|]|]; done.
Qed.




(** ** The loopback callback *)

(** C6, as the code has it.  A request whose state parameter is not the
    generated one (a request whose URL cannot be parsed has none) always
    rejects the login promise, the token endpoint is never called, nothing
    is cached and the listener is closed.  For a request for
    /oauth2callback the rejection is the CSRF mismatch, also sent as the
    answer, when the URL parses and carries no error parameter; the
    authorization error when it carries one; and the error of the URL
    parser, with no answer sent, when the URL does not parse. *)
Theorem state_mismatch_rejects (P : Platform) (st : State) (port : Z)
    (redirectUri state : jsstring) (req : IncomingMessage) :
  (∀ qs, searchParamsOf P port req = Some qs →
         searchParams_get qs (lit "state") ≠ Some state) →
  ∃ e replies,
    oauth2callback P port redirectUri state req st
    = (Throw e, with_log (ServerClose :: replies ++ log st) st)
    ∧ existsb is_token_exchange
        (calls_since st (oauth2callback P port redirectUri state req st).2) = false
    ∧ (∀ qs, includes (lit "/oauth2callback") (req_url req) = true →
             searchParamsOf P port req = Some qs →
             truthy (searchParams_get qs (lit "error")) = false →
             e = csrfMismatch ∧ replies = [ServerReply (Body csrfMismatch)])
    ∧ (∀ qs, includes (lit "/oauth2callback") (req_url req) = true →
             searchParamsOf P port req = Some qs →
             truthy (searchParams_get qs (lit "error")) = true →
             e = lit "Error during authentication: "
                   ++ default [] (searchParams_get qs (lit "error"))
             ∧ replies = [ServerReply (Redirect SIGN_IN_FAILURE_URL)])
    ∧ (includes (lit "/oauth2callback") (req_url req) = true →
       searchParamsOf P port req = None →
       e = lit "Invalid URL" ∧ replies = []).
Proof.
  intros Hstate.
  assert (Hcalls : ∀ replies,
            calls_since st (with_log (ServerClose :: replies ++ log st) st)
            = ServerClose :: replies).
  { intros replies. unfold calls_since. simpl. rewrite length_app.
    replace (S (length replies + length (log st)) - length (log st))%nat
      with (S (length replies)) by lia.
    simpl. by rewrite take_app_length. }
  assert (∃ e replies,
    oauth2callback P port redirectUri state req st
    = (Throw e, with_log (ServerClose :: replies ++ log st) st)
    ∧ existsb is_token_exchange replies = false
    ∧ (∀ qs, includes (lit "/oauth2callback") (req_url req) = true →
             searchParamsOf P port req = Some qs →
             truthy (searchParams_get qs (lit "error")) = false →
             e = csrfMismatch ∧ replies = [ServerReply (Body csrfMismatch)])
    ∧ (∀ qs, includes (lit "/oauth2callback") (req_url req) = true →
             searchParamsOf P port req = Some qs →
             truthy (searchParams_get qs (lit "error")) = true →
             e = lit "Error during authentication: "
                   ++ default [] (searchParams_get qs (lit "error"))
             ∧ replies = [ServerReply (Redirect SIGN_IN_FAILURE_URL)])
    ∧ (includes (lit "/oauth2callback") (req_url req) = true →
       searchParamsOf P port req = None →
       e = lit "Invalid URL" ∧ replies = []))
    as (e & replies & Hrun & Hnone & H1 & H2 & H3).
  { unfold oauth2callback, try_finally, new_URL. unfold searchParamsOf in *.
    destruct (includes (lit "/oauth2callback") (req_url req)) eqn:Hurl;
      cbv beta iota delta [negb].
    - destruct (new_URL_searchParams P (req_url req) _) as [qs|] eqn:Hparse.
      + unfold bind at 1. unfold ret at 1. cbv beta iota.
        destruct (truthy (searchParams_get qs (lit "error"))) eqn:Herr.
        * exists (lit "Error during authentication: "
                    ++ default [] (searchParams_get qs (lit "error"))),
            [ServerReply (Redirect SIGN_IN_FAILURE_URL)].
          split; [reflexivity|]. split; [reflexivity|].
          split; [|split].
          -- intros qs' _ [= <-] Hf. congruence.
          -- by intros qs' _ [= <-] _.
          -- by intros _ [=].
        * rewrite bool_decide_eq_true_2 by (by apply Hstate).
          exists csrfMismatch, [ServerReply (Body csrfMismatch)].
          split; [reflexivity|]. split; [reflexivity|].
          split; [|split].
          -- by intros qs' _ [= <-] _.
          -- intros qs' _ [= <-] Hf. congruence.
          -- by intros _ [=].
      + exists (lit "Invalid URL"), [].
        split; [reflexivity|]. split; [reflexivity|].
        split; [|split]; [by intros qs' _ [=] .. | done].
    - exists (lit "Unexpected request: " ++ req_url req),
        [ServerReply (Redirect SIGN_IN_FAILURE_URL)].
      split; [reflexivity|]. split; [reflexivity|].
      split; [|split]; [by intros qs' [=] .. | by intros [=]]. }
  exists e, replies. split; [exact Hrun|]. split; [|by split].
  rewrite Hrun. cbn [snd]. rewrite Hcalls. exact Hnone.
Qed.

Lemma state_mismatch_witness :
  oauth2callback offline 43210 (lit "http://localhost:43210/oauth2callback")
    (lit "5f2b") forgedCallback freshState
  = (Throw csrfMismatch,
     with_log [ServerClose; ServerReply (Body csrfMismatch)] freshState).
Proof.
  destruct (state_mismatch_rejects offline freshState 43210
              (lit "http://localhost:43210/oauth2callback") (lit "5f2b")
              forgedCallback) as (e & replies & Hrun & _ & Hcsrf & _).
  - intros qs Hqs. vm_compute in Hqs. injection Hqs as <-.
    vm_compute. discriminate.
  - destruct (Hcsrf (query_pairs (lit "code=4/abc&state=forged")))
      as [-> ->]; [vm_compute; reflexivity ..|].
    exact Hrun.
Defined.

(** C6 as stated fails: a callback with a foreign state that also carries
    an error parameter is rejected with the authorization error, not with
    the CSRF mismatch. *)
Lemma state_mismatch_with_error_is_not_csrf :
  searchParamsOf offline 43210 deniedCallback
  = Some [ (lit "error", lit "access_denied"); (lit "state", lit "forged") ]
  ∧ (oauth2callback offline 43210 (lit "http://localhost:43210/oauth2callback")
       (lit "5f2b") deniedCallback freshState).1
    = Throw (lit "Error during authentication: access_denied")
  ∧ (oauth2callback offline 43210 (lit "http://localhost:43210/oauth2callback")
       (lit "5f2b") deniedCallback freshState).1
    ≠ Throw csrfMismatch.
Proof.
  split; [vm_compute; reflexivity|].
  split; [vm_compute; reflexivity | vm_compute; discriminate].
Qed.

(** A callback whose URL the parser refuses is rejected with the parser's
    error, whatever state it names, and the browser gets no answer. *)
Example malformed_callback_is_rejected_unanswered :
  searchParamsOf offline 43210 malformedCallback = None
  ∧ oauth2callback offline 43210 (lit "http://localhost:43210/oauth2callback")
      (lit "5f2b") malformedCallback freshState
    = (Throw (lit "Invalid URL"), with_log [ServerClose] freshState).
Proof. split; vm_compute; reflexivity. Qed.

(** ** Project resolution *)

Lemma saveProjectConfig_returns (P : Platform) (projectId : jsstring) (st : State) :
  saveProjectConfig P projectId st = (Ok tt, (saveProjectConfig P projectId st).2).
Proof.
  unfold saveProjectConfig, try_catch, bind, mkdir, writeFile, ret.
  destruct (files st !! configDir P); [done|].
  destruct (files st !! _) as [[|]|]; done.
Qed.

(** The id the resolver starts from: the explicit one, or else the cached
    one, and nothing is changed by finding it. *)
Lemma initialProjectId_spec (P : Platform) (st : State) :
  initialProjectId P st
  = (Ok (if truthy (explicitProjectId P) then explicitProjectId P
         else if truthy (cachedProjectId P st) then cachedProjectId P st
         else explicitProjectId P), st).
Proof.
  unfold initialProjectId, cachedProjectId, explicitProjectId.
  unfold try_catch, bind, readFile, parse_or_throw, ret, throw.
  destruct (truthy (env P !! "GOOGLE_CLOUD_PROJECT"%string)) eqn:He.
  - destruct (files st !! configPath P) as [[data|]|]; [|done..].
    destruct (JSON_parse_config P data) as [config|]; [|done].
    by rewrite andb_false_r.
  - destruct (files st !! configPath P) as [[data|]|]; [|done..].
    destruct (JSON_parse_config P data) as [config|]; [|done].
    rewrite andb_true_r. by destruct (truthy (project_id config)).
Qed.

Lemma or_else_match (a b : option jsstring) :
  or_else a b = match a with Some (c :: p) => Some (c :: p) | _ => b end.
Proof. by destruct a as [[|]|]. Qed.

(** C2, as the code has it.  The resolver starts from the explicitly
    configured project id, or from the cached one when none is configured,
    and sends that id to remote discovery.  A project id that discovery
    returns replaces it, whether it was explicit, cached or absent; the
    id of an onboarding, when onboarding is required, replaces that in
    turn.  Without any id the resolver throws. *)
Theorem project_id_precedence (P : Platform) (st : State) :
  let initial :=
    if truthy (explicitProjectId P) then explicitProjectId P
    else if truthy (cachedProjectId P st) then cachedProjectId P st
    else explicitProjectId P in
  initialProjectId P st = (Ok initial, st)
  ∧ (∀ loadResult st1,
       loadCodeAssist P initial st = (Ok loadResult, st1) →
       onboardingRequired loadResult ≠ Some true →
       setupUserProject P st
       = (requireProjectId (or_else (cloudaicompanionProject loadResult) initial),
          afterDetection P loadResult st1))
  ∧ (∀ loadResult st1 onboarded st2,
       loadCodeAssist P initial st = (Ok loadResult, st1) →
       onboardingRequired loadResult = Some true →
       onboardUser P (or_else (cloudaicompanionProject loadResult) initial)
         (afterDetection P loadResult st1) = (Ok onboarded, st2) →
       (setupUserProject P st).1
       = requireProjectId
           (or_else onboarded
              (or_else (cloudaicompanionProject loadResult) initial))).
Proof.
  intros initial. split; [apply initialProjectId_spec|]. split.
  - intros loadResult st1 Hload Hno.
    unfold setupUserProject.
    rewrite (bind_ok _ _ _ _ _ (initialProjectId_spec P st)).
    fold initial. rewrite (bind_ok _ _ _ _ _ Hload).
    unfold afterDetection. rewrite or_else_match.
    destruct (cloudaicompanionProject loadResult) as [[|c p]|].
    + unfold bind at 1. unfold ret at 1.
      destruct (onboardingRequired loadResult) as [[|]|]; [done|..];
        unfold bind, ret, requireProjectId, throw; by destruct initial as [[|]|].
    + unfold bind at 1.
      rewrite (bind_ok _ _ _ _ _ (saveProjectConfig_returns P (c :: p) st1)).
      unfold ret at 1.
      destruct (onboardingRequired loadResult) as [[|]|]; [done|..];
        unfold bind, ret, requireProjectId; done.
    + unfold bind at 1. unfold ret at 1.
      destruct (onboardingRequired loadResult) as [[|]|]; [done|..];
        unfold bind, ret, requireProjectId, throw; by destruct initial as [[|]|].
  - intros loadResult st1 onboarded st2 Hload Hyes Honb.
    unfold setupUserProject.
    rewrite (bind_ok _ _ _ _ _ (initialProjectId_spec P st)).
    fold initial. rewrite (bind_ok _ _ _ _ _ Hload).
    revert Honb. unfold afterDetection. rewrite (or_else_match _ initial).
    rewrite Hyes.
    destruct (cloudaicompanionProject loadResult) as [[|c p]|]; intros Honb.
    + unfold bind at 1. unfold ret at 1. unfold bind at 1.
      rewrite (bind_ok _ _ _ _ _ Honb). rewrite or_else_match.
      destruct onboarded as [[|c' p']|].
      * unfold ret at 1. unfold requireProjectId, ret, throw.
        by destruct initial as [[|]|].
      * rewrite (bind_ok _ _ _ _ _ (saveProjectConfig_returns P (c' :: p') st2)).
        reflexivity.
      * unfold ret at 1. unfold requireProjectId, ret, throw.
        by destruct initial as [[|]|].
    + unfold bind at 1.
      rewrite (bind_ok _ _ _ _ _ (saveProjectConfig_returns P (c :: p) st1)).
      unfold ret at 1. unfold bind at 1.
      rewrite (bind_ok _ _ _ _ _ Honb). rewrite or_else_match.
      destruct onboarded as [[|c' p']|].
      * reflexivity.
      * rewrite (bind_ok _ _ _ _ _ (saveProjectConfig_returns P (c' :: p') st2)).
        reflexivity.
      * reflexivity.
    + unfold bind at 1. unfold ret at 1. unfold bind at 1.
      rewrite (bind_ok _ _ _ _ _ Honb). rewrite or_else_match.
      destruct onboarded as [[|c' p']|].
      * unfold ret at 1. unfold requireProjectId, ret, throw.
        by destruct initial as [[|]|].
      * rewrite (bind_ok _ _ _ _ _ (saveProjectConfig_returns P (c' :: p') st2)).
        reflexivity.
      * unfold ret at 1. unfold requireProjectId, ret, throw.
        by destruct initial as [[|]|].
Qed.

Lemma project_id_precedence_witness :
  (setupUserProject (onlineWithoutProject explicitEnv) loggedInState).1
  = Ok (lit "explicit-project").
Proof.
  pose proof (project_id_precedence (onlineWithoutProject explicitEnv) loggedInState)
    as (_ & Hdiscovery & _).
  rewrite (Hdiscovery
             {| cloudaicompanionProject := None; userTier := None;
                onboardingRequired := None |}
             (with_log [CallFetch LOAD_CODE_ASSIST; CallGetAccessToken] loggedInState)).
  - vm_compute. reflexivity.
  - vm_compute. reflexivity.
  - discriminate.
Defined.

(** C2 as stated fails: with an explicitly configured project id, the id
    that remote discovery returns is the one the resolver answers. *)
Lemma discovered_project_replaces_explicit :
  explicitProjectId (online explicitEnv) = Some (lit "explicit-project")
  ∧ (setupUserProject (online explicitEnv) loggedInState).1
    = Ok (lit "remote-project")
  ∧ (setupUserProject (online explicitEnv) loggedInState).1
    ≠ Ok (lit "explicit-project").
Proof.
  split; [vm_compute; reflexivity|].
  split; [vm_compute; reflexivity | vm_compute; discriminate].
Qed.

(** ** The search handler *)

Ltac unfold_handler :=
  unfold handleWebSearch, queryArgs; cbv beta iota delta [template_literal].

Lemma ensureInitialized_initialized (P : Platform) (st : State) :
  initialized st → ensureInitialized P st = (Ok tt, st).
Proof.
  intros [Hm|Ho]; unfold ensureInitialized, bind, get_state, ret.
  - by rewrite bool_decide_eq_true_2.
  - rewrite Ho. by rewrite andb_false_r.
Qed.

(** C1, as the code has it.  For an empty or white-space-only query the
    handler does nothing but the lazy initialisation it starts with: when
    the instance is initialised already it answers the empty-query error
    and the state, call log included, is untouched; when an API key selects
    the key transport the initialisation only stores the model, so the
    answer is again the empty-query error with no call made; otherwise
    the calls of the OAuth initialisation come first, and the answer is the
    empty-query error if it succeeds and the initialisation's error if it
    throws. *)
Theorem blank_query_is_rejected_after_initialization
    (P : Platform) (st : State) (query : jsstring) :
  blank query →
  handleWebSearch P (queryArgs query) st
  = match ensureInitialized P st with
    | (Ok _, st') => (Ok emptyQueryError, st')
    | (Throw e, st') => (Ok (searchError query e), st')
    | (Pending, st') => (Pending, st')
    end
  ∧ (initialized st → handleWebSearch P (queryArgs query) st = (Ok emptyQueryError, st))
  ∧ (∀ c key,
       ¬ initialized st →
       or_else (env P !! "GOOGLE_API_KEY"%string) (env P !! "GEMINI_API_KEY"%string)
       = Some (c :: key) →
       env P !! "USE_OAUTH"%string ≠ Some (lit "true") →
       handleWebSearch P (queryArgs query) st
       = (Ok emptyQueryError, with_this_model (Some (c :: key)) st)).
Proof.
  intros Hblank. apply is_blank_iff in Hblank.
  assert (Hmain : handleWebSearch P (queryArgs query) st
    = match ensureInitialized P st with
      | (Ok _, st') => (Ok emptyQueryError, st')
      | (Throw e, st') => (Ok (searchError query e), st')
      | (Pending, st') => (Pending, st')
      end).
  { unfold_handler; unfold try_catch, bind.
    destruct (ensureInitialized P st) as [[[]|e|] st']; rewrite ?Hblank; reflexivity. }
  split; [exact Hmain|]. split.
  - intros Hinit. rewrite Hmain. by rewrite ensureInitialized_initialized.
  - intros c key Hnot Hkey Hoauth. rewrite Hmain.
    unfold ensureInitialized, bind, get_state.
    assert (Hm : bool_decide (is_Some (this_model st)) = false).
    { apply bool_decide_eq_false. intros Hs. apply Hnot. by left. }
    assert (Ho : this_oauthClient st = false).
    { destruct (this_oauthClient st) eqn:E; [|done]. exfalso. apply Hnot. by right. }
    rewrite Hm, Ho. simpl.
    unfold initializeGeminiClient. rewrite Hkey.
    rewrite bool_decide_eq_false_2 by exact Hoauth. simpl.
    reflexivity.
Qed.

Lemma blank_query_witness :
  handleWebSearch (online {[ "GEMINI_API_KEY"%string := lit "AIza-key" ]})
    (queryArgs (lit "  ")) freshState
  = (Ok emptyQueryError, with_this_model (Some (lit "AIza-key")) freshState).
Proof.
  pose proof (blank_query_is_rejected_after_initialization
                (online {[ "GEMINI_API_KEY"%string := lit "AIza-key" ]})
                freshState (lit "  ")) as H.
  destruct H as (_ & _ & Hkey); [vm_compute; reflexivity|].
  apply (Hkey 65%N (lit "Iza-key")).
  - intros [[m Hm]|Ho]; [vm_compute in Hm | vm_compute in Ho]; discriminate.
  - vm_compute. reflexivity.
  - vm_compute. discriminate.
Defined.

(** C1 as stated fails: on the OAuth transport the lazy initialisation
    runs before the query is looked at.  With cached credentials it calls
    the token service and project discovery before the empty query is
    answered; and when it fails, the answer is its error, not the
    empty-query error. *)
Lemma blank_query_after_network_calls :
  blank (lit "   ")
  ∧ (handleWebSearch (online ∅) (queryArgs (lit "   ")) loggedInState).1 = Ok emptyQueryError
  ∧ calls_since loggedInState (handleWebSearch (online ∅) (queryArgs (lit "   ")) loggedInState).2
    = [CallFetch LOAD_CODE_ASSIST; CallGetAccessToken;
       CallGetTokenInfo (lit "ya29.token"); CallGetAccessToken]
  ∧ existsb is_network_call
      (calls_since loggedInState
         (handleWebSearch (online ∅) (queryArgs (lit "   ")) loggedInState).2) = true
  ∧ (handleWebSearch offline (queryArgs (lit "   ")) freshState).1
    = Ok (searchError (lit "   ") (lit "listen EACCES"))
  ∧ (handleWebSearch offline (queryArgs (lit "   ")) freshState).1 ≠ Ok emptyQueryError.
Proof.
  split; [vm_compute; reflexivity|].
  split; [vm_compute; reflexivity|].
  split; [vm_compute; reflexivity|].
  split; [vm_compute; reflexivity|].
  split; [vm_compute; reflexivity | vm_compute; discriminate].
Qed.

(* ===================================================================== *)
(** * Further properties of the code *)
(* ===================================================================== *)

(** ** The merger on arbitrary supports *)

Lemma sublist_concat (l1 l2 : list jsstring) :
  l1 `sublist_of` l2 → concat l1 `sublist_of` concat l2.
Proof.
  induction 1 as [|x l1 l2 _ IH|x l1 l2 _ IH]; simpl.
  - constructor.
  - by apply sublist_app.
  - by apply sublist_inserts_l.
Qed.

Lemma sublist_splice (l arr : list jsstring) start item :
  l `sublist_of` arr → l `sublist_of` splice arr start item.
Proof.
  intros H. unfold splice. set (k := splice_start _ _).
  etrans; [exact H|].
  rewrite <- (take_drop k arr) at 1.
  apply sublist_app; [done|]. by apply sublist_cons.
Qed.

Lemma applyInsertions_sublist (l : list jsstring) (insertions : list Insertion) :
  ∀ arr, l `sublist_of` arr → l `sublist_of` applyInsertions arr insertions.
Proof.
  induction insertions as [|x insertions IH]; intros arr H; simpl; [done|].
  apply IH. by apply sublist_splice.
Qed.

Lemma concat_splice (arr : list jsstring) start item :
  length (concat (splice arr start item)) = (length (concat arr) + length item)%nat.
Proof.
  unfold splice. set (k := splice_start _ _).
  rewrite <- (take_drop k arr) at 3.
  rewrite !concat_app, !length_app. simpl. rewrite length_app. lia.
Qed.

Lemma concat_applyInsertions_length (insertions : list Insertion) :
  ∀ arr, length (concat (applyInsertions arr insertions))
         = (length (concat arr) + markersLength insertions)%nat.
Proof.
  unfold markersLength.
  induction insertions as [|x insertions IH]; intros arr; simpl; [lia|].
  fold (applyInsertions (splice arr (index x) (marker x)) insertions).
  rewrite IH, concat_splice. lia.
Qed.

Lemma markersLength_perm (l1 l2 : list Insertion) :
  l1 ≡ₚ l2 → markersLength l1 = markersLength l2.
Proof.
  unfold markersLength.
  induction 1; simpl; lia.
Qed.

Lemma insertMarkers_sublist (responseText : jsstring)
    (groundingSupports : list GroundingSupportItem) :
  responseText `sublist_of` insertMarkers responseText groundingSupports.
Proof.
  unfold insertMarkers. rewrite array_join_empty_sep.
  rewrite <- (concat_split_chars responseText) at 1.
  apply sublist_concat, applyInsertions_sublist. done.
Qed.

(** X1. Whatever the chunks and supports are (indices past the end or
    negative included), the merger neither drops nor reorders a code unit
    of the response text, and splicing the markers in makes the text
    longer by exactly the length of all markers. *)
Theorem merger_keeps_the_text (responseText : jsstring)
    (sources : option (list GroundingChunkItem))
    (groundingSupports : option (list GroundingSupportItem)) :
  responseText `sublist_of` mergeCitations responseText sources groundingSupports
  ∧ ∀ supports' : list GroundingSupportItem,
      length (insertMarkers responseText supports')
      = (length responseText + markersLength (collectInsertions supports'))%nat.
Proof.
  split.
  - unfold mergeCitations. destruct sources as [[|s srcs]|]; [done| |done].
    assert (Hbody : responseText `sublist_of`
              match groundingSupports with
              | Some (g :: gs) => insertMarkers responseText (g :: gs)
              | _ => responseText
              end).
    { destruct groundingSupports as [[|g gs]|]; [done| |done].
      apply insertMarkers_sublist. }
    destruct (bool_decide _); [|done]. by apply sublist_inserts_r.
  - intros supports'. unfold insertMarkers.
    rewrite array_join_empty_sep, concat_applyInsertions_length.
    rewrite concat_split_chars.
    by rewrite (markersLength_perm _ _ (array_sort_perm _)).
Qed.

Lemma collectInsertions_step (supports' : list GroundingSupportItem) :
  ∀ acc : list Insertion,
    foldl (λ insertions support,
             match segment support, groundingChunkIndices support with
             | Some seg, Some indices =>
                 insertions ++ [{| index := endIndex seg;
                                   marker := citationMarker indices |}]
             | _, _ => insertions
             end) acc supports'
    = acc ++ collectInsertions supports'.
Proof.
  unfold collectInsertions.
  induction supports' as [|s supports' IH]; intros acc; simpl.
  - by rewrite app_nil_r.
  - destruct (segment s) as [seg|], (groundingChunkIndices s) as [indices|];
      simpl; try apply IH.
    rewrite IH. rewrite (IH [_]). by rewrite <- app_assoc.
Qed.

Lemma collectInsertions_cons (s : GroundingSupportItem) supports' :
  collectInsertions (s :: supports')
  = match segment s, groundingChunkIndices s with
    | Some seg, Some indices =>
        {| index := endIndex seg; marker := citationMarker indices |}
          :: collectInsertions supports'
    | _, _ => collectInsertions supports'
    end.
Proof.
  unfold collectInsertions at 1. simpl. rewrite collectInsertions_step.
  by destruct (segment s), (groundingChunkIndices s).
Qed.

Lemma collectInsertions_cites_nothing (supports' : list GroundingSupportItem) :
  Forall cites_nothing supports' →
  Forall (λ i, marker i = []) (collectInsertions supports').
Proof.
  induction 1 as [|s supports' Hs _ IH]; [constructor|].
  rewrite collectInsertions_cons.
  destruct Hs as [Hs|[Hs|Hs]]; rewrite Hs.
  - done.
  - by destruct (segment s).
  - destruct (segment s); [|done]. by constructor.
Qed.

Lemma applyInsertions_empty_markers (insertions : list Insertion) :
  Forall (λ i, marker i = []) insertions →
  ∀ arr, concat (applyInsertions arr insertions) = concat arr.
Proof.
  induction 1 as [|x insertions Hx _ IH]; intros arr; simpl; [done|].
  fold (applyInsertions (splice arr (index x) (marker x)) insertions).
  rewrite IH, Hx. unfold splice. set (k := splice_start _ _).
  rewrite concat_app. simpl. rewrite <- concat_app. by rewrite take_drop.
Qed.

(** X2. With a non-empty chunk list, supports that have no segment, no
    chunk index list or an empty chunk index list (an empty support list
    too) leave the text without any marker: the result is the text
    followed by the source list. *)
Theorem supports_that_cite_nothing (responseText : jsstring)
    (s : GroundingChunkItem) (srcs : list GroundingChunkItem)
    (groundingSupports : list GroundingSupportItem) :
  Forall cites_nothing groundingSupports →
  mergeCitations responseText (Some (s :: srcs)) (Some groundingSupports)
  = responseText ++ sourcesBlock (s :: srcs).
Proof.
  intros H. unfold mergeCitations. rewrite sourceListFormatted_nonempty.
  destruct groundingSupports as [|g gs]; [done|].
  unfold insertMarkers. rewrite array_join_empty_sep.
  rewrite applyInsertions_empty_markers.
  - by rewrite concat_split_chars.
  - rewrite array_sort_perm. by apply collectInsertions_cites_nothing.
Qed.

Lemma supports_that_cite_nothing_witness :
  mergeCitations (lit "Paris.") (Some [wikiChunk])
    (Some [ {| segment := None; groundingChunkIndices := Some [0] |};
            supportEndingAt 3 [] ])
  = lit "Paris." ++ sourcesBlock [wikiChunk].
Proof.
  apply (supports_that_cite_nothing (lit "Paris.") wikiChunk []).
  apply Forall_cons_2; [by left|].
  apply Forall_cons_2; [by right; right|].
  apply Forall_nil_2.
Defined.

Lemma split_chars_length (s : jsstring) : length (split_chars s) = length s.
Proof. unfold split_chars. apply length_map. Qed.

Lemma concat_spliced (s : jsstring) (k : nat) (rest : list jsstring) :
  concat (take k (split_chars s) ++ rest)
  = take k s ++ concat rest.
Proof. by rewrite concat_app, take_split_chars, concat_split_chars. Qed.

(** X3. A negative index counts from the end of the array as it is when
    the insertion is applied.  Alone, an insertion at index -k lands k
    code units before the end of the text (at the front when k exceeds the
    length).  After an insertion at the end of the text, the array is one
    element longer, so an insertion at -k lands one code unit later than
    that: at -1 it stands behind the last code unit, in front of the
    marker at the end. *)
Theorem negative_index_counts_from_the_current_end (responseText : jsstring) :
  (∀ x : Insertion,
     index x < 0 →
     let p := Z.to_nat (Z.max (Z.of_nat (length responseText) + index x) 0) in
     array_join []
       (applyInsertions (split_chars responseText)
          (array_sort byIndexDescending [x]))
     = take p responseText ++ marker x ++ drop p responseText)
  ∧ (∀ (a b : Insertion) (k : nat),
       index a = Z.of_nat (length responseText) →
       (1 ≤ k ≤ length responseText + 1)%nat →
       index b = - Z.of_nat k →
       let q := (length responseText + 1 - k)%nat in
       array_join []
         (applyInsertions (split_chars responseText)
            (array_sort byIndexDescending [b; a]))
       = take q responseText ++ marker b ++ drop q responseText ++ marker a).
Proof.
  split.
  - intros x Hx p. rewrite array_join_empty_sep. simpl.
    unfold splice, splice_start. rewrite split_chars_length.
    destruct (Z.ltb_spec (index x) 0); [|lia].
    fold p. rewrite concat_spliced. simpl.
    by rewrite drop_split_chars, concat_split_chars.
  - intros a b k Ha Hk Hb q. rewrite array_join_empty_sep. simpl.
    unfold byIndexDescending at 1.
    destruct (Z.leb_spec (index a - index b) 0); [lia|]. simpl.
    rewrite (splice_past_end (split_chars responseText))
      by (rewrite split_chars_length; lia).
    unfold splice, splice_start.
    rewrite length_app, split_chars_length. simpl.
    destruct (Z.ltb_spec (index b) 0); [|lia].
    replace (Z.to_nat (Z.max (Z.of_nat (length responseText + 1) + index b) 0))
      with q by (subst q; lia).
    assert (Hq : (q ≤ length (split_chars responseText))%nat)
      by (rewrite split_chars_length; subst q; lia).
    rewrite take_app_le, drop_app_le by done.
    rewrite concat_spliced. simpl. rewrite concat_app. simpl.
    rewrite drop_split_chars, concat_split_chars, app_nil_r.
    by rewrite <- ?app_assoc.
Qed.

Lemma negative_index_witness :
  array_join []
    (applyInsertions (split_chars (lit "abc"))
       (array_sort byIndexDescending
          [ {| index := -1; marker := lit "[2]" |};
            {| index := 3; marker := lit "[1]" |} ]))
  = take 3 (lit "abc") ++ lit "[2]" ++ drop 3 (lit "abc") ++ lit "[1]".
Proof.
  apply (proj2 (negative_index_counts_from_the_current_end (lit "abc"))
           {| index := 3; marker := lit "[1]" |}
           {| index := -1; marker := lit "[2]" |} 1%nat).
  - reflexivity.
  - vm_compute. split; repeat constructor.
  - reflexivity.
Defined.

(** X4. The source list has one line per chunk, in the order of the
    chunks, and the line of the chunk at position i starts with the very
    marker the text cites chunk i with; a missing or empty title or URI is
    shown as "Untitled" or "No URI". *)
Theorem source_lines_match_markers (sources : list GroundingChunkItem) :
  length (sourceListFormatted sources) = length sources
  ∧ ∀ (i : nat) (source : GroundingChunkItem),
      sources !! i = Some source →
      sourceListFormatted sources !! i
      = Some (citationMarker [Z.of_nat i] ++ lit " "
                ++ or_default (web source ≫= title) (lit "Untitled")
                ++ lit " (" ++ or_default (web source ≫= uri) (lit "No URI")
                ++ lit ")").
Proof.
  unfold sourceListFormatted. split; [apply length_imap|].
  intros i source Hi. rewrite list_lookup_imap, Hi. simpl.
  unfold formatSource, citationMarker. simpl.
  by rewrite <- !app_assoc.
Qed.

Lemma source_lines_witness :
  sourceListFormatted [wikiChunk; {| web := None |}] !! 1%nat
  = Some (citationMarker [1] ++ lit " " ++ lit "Untitled" ++ lit " ("
            ++ lit "No URI" ++ lit ")").
Proof.
  apply (proj2 (source_lines_match_markers [wikiChunk; {| web := None |}])
           1%nat {| web := None |}).
  reflexivity.
Defined.

(** ** The search handler on both transports *)

(** X5. What the handler reports and what it lets through.  Given an
    arguments object whose query can be shown in a template literal (a
    string, or any other value that converts to a string), the handler
    never throws: whatever is thrown inside, the failure of the lazy
    initialisation included, comes back as an error result that quotes
    the query and the message; a truthy query that is no string is
    reported so, for its missing [trim] method.  The [catch] block reads [args.query] itself,
    however: for a tool call without arguments, and for a query that has
    no string conversion, the handler throws the engine's [TypeError] as
    soon as the initialisation has settled, whether it succeeded or
    failed. *)
Theorem handleWebSearch_reports_what_is_thrown (P : Platform) (st : State) :
  (∀ a e st',
     is_Some (template_literal (query a)) →
     handleWebSearch P (Some a) st ≠ (Throw e, st'))
  ∧ (∀ a shown e st1,
       template_literal (query a) = Some shown →
       ensureInitialized P st = (Throw e, st1) →
       handleWebSearch P (Some a) st = (Ok (searchError shown e), st1))
  ∧ (∀ shown st1,
       ensureInitialized P st = (Ok tt, st1) →
       handleWebSearch P (Some {| query := QueryTruthy (Some shown) |}) st
       = (Ok (searchError shown trimIsNotAFunction), st1))
  ∧ handleWebSearch P None st
    = match ensureInitialized P st with
      | (Pending, st1) => (Pending, st1)
      | (_, st1) => (Throw cannotReadQuery, st1)
      end
  ∧ handleWebSearch P (Some {| query := QueryTruthy None |}) st
    = match ensureInitialized P st with
      | (Pending, st1) => (Pending, st1)
      | (_, st1) => (Throw cannotConvert, st1)
      end.
Proof.
  split; [|split; [|split; [|split]]].
  - intros [value] e st' [shown Hshown]. cbn [query] in Hshown.
    unfold handleWebSearch, try_catch. cbv beta iota. rewrite Hshown.
    destruct (bind _ _ st) as [[r|e'|] st'']; unfold ret; congruence.
  - intros [value] shown e st1 Hshown H. cbn [query] in Hshown.
    unfold handleWebSearch, try_catch.
    rewrite (bind_throw _ _ _ _ _ H). cbv beta iota. by rewrite Hshown.
  - intros shown st1 H. unfold handleWebSearch, try_catch.
    by rewrite (bind_ok _ _ _ _ _ H).
  - unfold handleWebSearch, try_catch, bind.
    by destruct (ensureInitialized P st) as [[[]|e|] st1].
  - unfold handleWebSearch, try_catch, bind.
    by destruct (ensureInitialized P st) as [[[]|e|] st1].
Qed.

Lemma handleWebSearch_reports_witness :
  handleWebSearch offline (queryArgs (lit "rocq")) freshState
  = (Ok (searchError (lit "rocq") (lit "listen EACCES")), freshState).
Proof.
  apply (proj1 (proj2 (handleWebSearch_reports_what_is_thrown offline freshState))
           {| query := QueryString (lit "rocq") |} (lit "rocq") (lit "listen EACCES")).
  - reflexivity.
  - vm_compute. reflexivity.
Defined.

(** A tool call without arguments: the handler throws, before and after
    the instance is initialised. *)
Example tool_call_without_arguments :
  handleWebSearch offline None freshState = (Throw cannotReadQuery, freshState)
  ∧ handleWebSearch (online ∅) None loggedInState
    = (Throw cannotReadQuery, (ensureInitialized (online ∅) loggedInState).2).
Proof. split; vm_compute; reflexivity. Qed.

(** X6. With a model built from an API key, a search is one
    [sendMessage] call and nothing else: its text and grounding metadata
    are merged into the answer (or reported as "no results" when the text
    is blank), and a failure of the call is reported with its message. *)
Theorem search_with_api_key (P : Platform) (st : State)
    (key query : jsstring) :
  this_model st = Some key →
  this_oauthClient st = false →
  is_blank query = false →
  (∀ response t,
     sendMessage P key query = Ok response →
     response_text response = Ok t →
     handleWebSearch P (queryArgs query) st
     = (Ok (answer query
              {| responseText := t;
                 sources :=
                   (first_candidate (candidates response) ≫= groundingMetadata)
                     ≫= groundingChunks;
                 supports :=
                   (first_candidate (candidates response) ≫= groundingMetadata)
                     ≫= groundingSupports |}),
        with_log (CallSendMessage query :: log st) st))
  ∧ (∀ e, sendMessage P key query = Throw e →
       handleWebSearch P (queryArgs query) st
       = (Ok (searchError query e), with_log (CallSendMessage query :: log st) st)).
Proof.
  intros Hm Ho Hq.
  assert (Hinit : ensureInitialized P st = (Ok tt, st)).
  { apply ensureInitialized_initialized. left. by rewrite Hm. }
  split.
  - intros response t Hs Ht. unfold_handler; unfold try_catch.
    rewrite (bind_ok _ _ _ _ _ Hinit), Hq.
    unfold bind, get_state, emit, await, ret. rewrite Ho, Hm. simpl.
    rewrite Hs, Ht. unfold answer. simpl.
    by destruct (is_blank t).
  - intros e Hs. unfold_handler; unfold try_catch.
    rewrite (bind_ok _ _ _ _ _ Hinit), Hq.
    unfold bind, get_state, emit, await, ret. rewrite Ho, Hm. simpl.
    by rewrite Hs.
Qed.

Lemma oauth_search_project_missing (P : Platform) (st : State) (query : jsstring) :
  this_oauthClient st = true →
  is_blank query = false →
  truthy (or_else (this_projectId st) (env P !! "GOOGLE_CLOUD_PROJECT"%string)) = false →
  handleWebSearch P (queryArgs query) st = (Ok (searchError query projectIdMissing), st).
Proof.
  intros Ho Hq Hp.
  assert (Hinit : ensureInitialized P st = (Ok tt, st)).
  { apply ensureInitialized_initialized. by right. }
  unfold_handler; unfold try_catch.
  rewrite (bind_ok _ _ _ _ _ Hinit), Hq.
  unfold bind at 1. unfold get_state at 1. rewrite Ho.
  unfold callCodeAssistAPI, bind, get_state, throw. rewrite Ho. simpl.
  destruct (or_else _ _) as [[|c p]|]; try done.
Qed.

(** X7. On the OAuth transport a search needs a project id: when neither
    the instance nor GOOGLE_CLOUD_PROJECT has one, the handler answers
    "Project ID not available" and makes no call at all. *)
Theorem oauth_search_without_project (P : Platform) (st : State) (query : jsstring) :
  this_oauthClient st = true →
  is_blank query = false →
  truthy (or_else (this_projectId st) (env P !! "GOOGLE_CLOUD_PROJECT"%string)) = false →
  handleWebSearch P (queryArgs query) st = (Ok (searchError query projectIdMissing), st).
Proof.
  intros Ho Hq Hp.
  assert (Hinit : ensureInitialized P st = (Ok tt, st)).
  { apply ensureInitialized_initialized. by right. }
  unfold_handler; unfold try_catch.
  rewrite (bind_ok _ _ _ _ _ Hinit), Hq.
  unfold bind at 1. unfold get_state at 1. rewrite Ho.
  unfold callCodeAssistAPI, bind, get_state, throw. rewrite Ho. simpl.
  destruct (or_else _ _) as [[|c p]|]; try done.
Qed.

Lemma search_with_api_key_witness :
  handleWebSearch (chatStation (lit "Rocq 9.1 is out.")) (queryArgs (lit "rocq")) keySession
  = (Ok (searchResults (lit "rocq") (lit "Rocq 9.1 is out.")),
     with_log [CallSendMessage (lit "rocq")] keySession).
Proof.
  apply (proj1 (search_with_api_key (chatStation (lit "Rocq 9.1 is out.")) keySession
                  (lit "AIza-key") (lit "rocq") eq_refl eq_refl eq_refl)
           (chatAnswer (lit "Rocq 9.1 is out.")) (lit "Rocq 9.1 is out."));
    reflexivity.
Defined.

Lemma oauth_search_without_project_witness :
  handleWebSearch (assistStation ∅ (jsonReply (plainAnswer (lit "x")))) (queryArgs (lit "rocq"))
    oauthSession
  = (Ok (searchError (lit "rocq") projectIdMissing), oauthSession).
Proof.
  apply (oauth_search_without_project
           (assistStation ∅ (jsonReply (plainAnswer (lit "x")))) oauthSession (lit "rocq"));
    reflexivity.
Defined.

Lemma client_getAccessToken_ok (P : Platform) (st : State) token creds :
  getAccessToken P (client_credentials st) = Ok (token, creds) →
  client_getAccessToken P st
  = (Ok token, with_client_credentials creds (with_log (CallGetAccessToken :: log st) st)).
Proof.
  intros H. unfold client_getAccessToken, bind, emit, get_state, await,
    client_setCredentials, modify, ret. simpl. by rewrite H.
Qed.

(** The handler once the OAuth client is set and the query is not blank. *)
Lemma handleWebSearch_oauth (P : Platform) (st : State) (query : jsstring) :
  this_oauthClient st = true →
  is_blank query = false →
  handleWebSearch P (queryArgs query) st
  = match callCodeAssistAPI P query st with
    | (Ok data, st') => (Ok (answer query data), st')
    | (Throw e, st') => (Ok (searchError query e), st')
    | (Pending, st') => (Pending, st')
    end.
Proof.
  intros Ho Hq.
  assert (Hinit : ensureInitialized P st = (Ok tt, st)).
  { apply ensureInitialized_initialized. by right. }
  unfold_handler; unfold try_catch.
  rewrite (bind_ok _ _ _ _ _ Hinit), Hq.
  unfold bind at 1. unfold get_state at 1. rewrite Ho.
  unfold bind at 1.
  destruct (callCodeAssistAPI P query st) as [[data|e|] st']; try done.
  unfold answer, ret. by destruct (is_blank (responseText data)).
Qed.

Lemma callCodeAssistAPI_fetch (P : Platform) (st : State) (query : jsstring)
    c p token creds response :
  this_oauthClient st = true →
  or_else (this_projectId st) (env P !! "GOOGLE_CLOUD_PROJECT"%string) = Some (c :: p) →
  getAccessToken P (client_credentials st) = Ok (token, creds) →
  post_generateContent P token (c :: p) query = Ok response →
  callCodeAssistAPI P query st
  = (if ok response then
       match body_json response with
       | Ok result => Ok (searchDataOf result)
       | Throw e => Throw e
       | Pending => Pending
       end
     else Throw (lit "Code Assist API error: " ++ number_to_string (status response)
                   ++ lit " " ++ statusText response),
     with_log (CallFetch GENERATE_CONTENT :: CallGetAccessToken :: log st)
       (with_client_credentials creds (with_log (CallGetAccessToken :: log st) st))).
Proof.
  intros Ho Hp Htok Hfetch.
  unfold callCodeAssistAPI. unfold bind at 1. unfold get_state at 1.
  rewrite Ho, Hp. simpl.
  rewrite (bind_ok _ _ _ _ _ (client_getAccessToken_ok P st _ _ Htok)).
  unfold bind, emit, await, ret, throw. simpl. rewrite Hfetch.
  destruct (ok response); simpl; [|done].
  by destruct (body_json response).
Qed.

(** X8. On the OAuth transport, a [generateContent] response that is not
    2xx is reported as "Code Assist API error" with the status and status
    text; the body of the response is not read. *)
Theorem oauth_search_http_error (P : Platform) (st : State) (query : jsstring)
    c p token creds response :
  this_oauthClient st = true →
  is_blank query = false →
  or_else (this_projectId st) (env P !! "GOOGLE_CLOUD_PROJECT"%string) = Some (c :: p) →
  getAccessToken P (client_credentials st) = Ok (token, creds) →
  post_generateContent P token (c :: p) query = Ok response →
  ok response = false →
  handleWebSearch P (queryArgs query) st
  = (Ok (searchError query
           (lit "Code Assist API error: " ++ number_to_string (status response)
              ++ lit " " ++ statusText response)),
     with_log (CallFetch GENERATE_CONTENT :: CallGetAccessToken :: log st)
       (with_client_credentials creds (with_log (CallGetAccessToken :: log st) st))).
Proof.
  intros Ho Hq Hp Htok Hfetch Hok.
  rewrite handleWebSearch_oauth by done.
  rewrite (callCodeAssistAPI_fetch P st query c p token creds response) by done.
  by rewrite Hok.
Qed.

Lemma oauth_search_http_error_witness :
  (handleWebSearch
     (assistStation explicitEnv (httpError 429 (lit "Too Many Requests")))
     (queryArgs (lit "rocq")) oauthSession).1
  = Ok (searchError (lit "rocq") (lit "Code Assist API error: 429 Too Many Requests")).
Proof.
  rewrite (oauth_search_http_error
             (assistStation explicitEnv (httpError 429 (lit "Too Many Requests")))
             oauthSession (lit "rocq") 101%N (lit "xplicit-project")
             None noCredentials (httpError 429 (lit "Too Many Requests")));
    reflexivity.
Defined.

(** X9. On the OAuth transport, a 2xx [generateContent] response is
    answered from its first candidate: the text of its first part and its
    grounding metadata are merged, and a body without candidates, parts or
    text is answered with "no results".  The project id of the instance is
    used before GOOGLE_CLOUD_PROJECT. *)
Theorem oauth_search_answer (P : Platform) (st : State) (query : jsstring)
    c p token creds response result :
  this_oauthClient st = true →
  is_blank query = false →
  or_else (this_projectId st) (env P !! "GOOGLE_CLOUD_PROJECT"%string) = Some (c :: p) →
  getAccessToken P (client_credentials st) = Ok (token, creds) →
  post_generateContent P token (c :: p) query = Ok response →
  ok response = true →
  body_json response = Ok result →
  handleWebSearch P (queryArgs query) st
  = (Ok (answer query (searchDataOf result)),
     with_log (CallFetch GENERATE_CONTENT :: CallGetAccessToken :: log st)
       (with_client_credentials creds (with_log (CallGetAccessToken :: log st) st)))
  ∧ (first_part_text (first_candidate (response_candidates result)) = None →
     answer query (searchDataOf result) = noResults query).
Proof.
  intros Ho Hq Hp Htok Hfetch Hok Hjson. split.
  - rewrite handleWebSearch_oauth by done.
    rewrite (callCodeAssistAPI_fetch P st query c p token creds response) by done.
    by rewrite Hok, Hjson.
  - intros Hnone. unfold answer, searchDataOf. simpl. by rewrite Hnone.
Qed.

Lemma oauth_search_answer_witness :
  (handleWebSearch
     (assistStation explicitEnv (jsonReply (plainAnswer (lit "Rocq 9.1 is out."))))
     (queryArgs (lit "rocq")) oauthSession).1
  = Ok (searchResults (lit "rocq") (lit "Rocq 9.1 is out.")).
Proof.
  rewrite (proj1 (oauth_search_answer
             (assistStation explicitEnv (jsonReply (plainAnswer (lit "Rocq 9.1 is out."))))
             oauthSession (lit "rocq") 101%N (lit "xplicit-project")
             None noCredentials (jsonReply (plainAnswer (lit "Rocq 9.1 is out.")))
             (plainAnswer (lit "Rocq 9.1 is out."))
             eq_refl eq_refl eq_refl eq_refl eq_refl eq_refl eq_refl)).
  reflexivity.
Defined.

(** ** What the login and the project resolution leave alone *)

Lemma unchanged_but_refl (allowed : list jsstring) (st : State) :
  unchanged_but allowed st st.
Proof. by split. Qed.

Lemma unchanged_but_trans (allowed : list jsstring) (st1 st2 st3 : State) :
  unchanged_but allowed st1 st2 → unchanged_but allowed st2 st3 →
  unchanged_but allowed st1 st3.
Proof.
  intros [Hs1 Hf1] [Hs2 Hf2]. split; [congruence|].
  intros other Ho. rewrite Hf2, Hf1; done.
Qed.

Lemma respects_ret {A} allowed (a : A) : respects allowed (ret a).
Proof. intros st. apply unchanged_but_refl. Qed.

Lemma respects_throw {A} allowed e : respects allowed (@throw A e).
Proof. intros st. apply unchanged_but_refl. Qed.

Lemma respects_await {A} allowed (o : outcome A) : respects allowed (await o).
Proof. intros st. apply unchanged_but_refl. Qed.

Lemma respects_get_state allowed : respects allowed get_state.
Proof. intros st. apply unchanged_but_refl. Qed.

Lemma respects_emit allowed e : respects allowed (emit e).
Proof. intros st. by split. Qed.

Lemma respects_readFile allowed path : respects allowed (readFile path).
Proof.
  intros st. unfold readFile.
  destruct (files st !! path) as [[|]|]; apply unchanged_but_refl.
Qed.

Lemma respects_mkdir allowed dir : respects allowed (mkdir dir).
Proof.
  intros st. unfold mkdir.
  destruct (files st !! dir); apply unchanged_but_refl.
Qed.

Lemma respects_writeFile allowed path data :
  path ∈ allowed → respects allowed (writeFile path data).
Proof.
  intros Hin st. unfold writeFile.
  destruct (files st !! path) as [[|]|]; try apply unchanged_but_refl;
    (split; [done|]; intros other Ho; simpl;
     apply lookup_insert_ne; intros ->; done).
Qed.

(** Sequencing, when the continuation behaves on what [m] returns. *)
Lemma respects_bind_after {A B} allowed (m : M A) (k : A → M B) :
  respects allowed m →
  (∀ st a st', m st = (Ok a, st') → unchanged_but allowed st' (k a st').2) →
  respects allowed (bind m k).
Proof.
  intros Hm Hk st. unfold bind. specialize (Hm st).
  destruct (m st) as [[a|e|] st'] eqn:E; simpl in *; [|done..].
  eapply unchanged_but_trans; [exact Hm|]. by eapply Hk.
Qed.

Lemma respects_bind {A B} allowed (m : M A) (k : A → M B) :
  respects allowed m → (∀ a, respects allowed (k a)) →
  respects allowed (bind m k).
Proof.
  intros Hm Hk. apply respects_bind_after; [done|].
  intros st a st' _. apply Hk.
Qed.

Lemma respects_try_catch {A} allowed (m : M A) (h : jsstring → M A) :
  respects allowed m → (∀ e, respects allowed (h e)) →
  respects allowed (try_catch m h).
Proof.
  intros Hm Hh st. unfold try_catch. specialize (Hm st).
  destruct (m st) as [[a|e|] st'] eqn:E; simpl in *; [done| |done].
  eapply unchanged_but_trans; [exact Hm|]. apply Hh.
Qed.

Lemma respects_try_finally {A} allowed (m : M A) (f : State → State) :
  respects allowed m → (∀ st, unchanged_but allowed st (f st)) →
  respects allowed (try_finally m f).
Proof.
  intros Hm Hf st. unfold try_finally. specialize (Hm st).
  destruct (m st) as [[a|e|] st'] eqn:E; simpl in *; [| |done];
    (eapply unchanged_but_trans; [exact Hm|]; apply Hf).
Qed.

Lemma respects_setCredentials allowed c :
  respects allowed (client_setCredentials c).
Proof. intros st. by split. Qed.

Create HintDb frame discriminated.
#[local] Hint Resolve respects_ret respects_throw respects_await respects_get_state
  respects_emit respects_readFile respects_mkdir respects_setCredentials : frame.

(** Takes a goal [respects allowed m] apart along the shape of [m]. *)
Ltac frame :=
  repeat first
    [ progress eauto with frame
    | apply respects_bind; [|intros ?]
    | apply respects_try_catch; [|intros ?]
    | match goal with
      | |- respects _ (if ?b then _ else _) => destruct b
      | |- respects _ (match ?x with _ => _ end) => destruct x
      end ].

Lemma respects_getAccessToken allowed P : respects allowed (client_getAccessToken P).
Proof. unfold client_getAccessToken. frame. Qed.

Lemma respects_getTokenInfo allowed P token :
  respects allowed (client_getTokenInfo P token).
Proof. unfold client_getTokenInfo. frame. Qed.

Lemma respects_getToken allowed P code uri :
  respects allowed (client_getToken P code uri).
Proof. unfold client_getToken. frame. Qed.

#[local] Hint Resolve respects_getAccessToken respects_getTokenInfo
  respects_getToken : frame.

Lemma respects_parse allowed {A} (parsed : option A) :
  respects allowed (parse_or_throw parsed).
Proof. unfold parse_or_throw. frame. Qed.

Lemma respects_new_URL allowed P input base :
  respects allowed (new_URL P input base).
Proof. unfold new_URL. frame. Qed.

#[local] Hint Resolve respects_parse respects_new_URL : frame.

Lemma respects_loadCachedCredentials allowed P :
  respects allowed (loadCachedCredentials P).
Proof. unfold loadCachedCredentials. frame. Qed.

Lemma respects_cacheCredentials allowed P creds :
  getCachedCredentialPath P ∈ allowed →
  respects allowed (cacheCredentials P creds).
Proof.
  intros Hin. unfold cacheCredentials. frame. by apply respects_writeFile.
Qed.

Lemma respects_oauth2callback allowed P port redirectUri state req :
  getCachedCredentialPath P ∈ allowed →
  respects allowed (oauth2callback P port redirectUri state req).
Proof.
  intros Hin. unfold oauth2callback.
  pose proof (λ creds, respects_cacheCredentials allowed P creds Hin) as Hcache.
  apply respects_try_finally; [|intros st; by split].
  frame.
Qed.

Lemma authWithWeb_listens (P : Platform) (st : State) (port : Z) :
  ephemeral_port P = Ok port →
  authWithWeb P st
  = (Ok {| authUrl := generateAuthUrl P (redirectUriOf port) (randomBytes_hex P);
           loginCompletePromise :=
             match incoming P with
             | Some req => oauth2callback P port (redirectUriOf port) (randomBytes_hex P) req
             | None => await Pending
             end |},
     with_log (ServerListen port :: log st) st).
Proof.
  intros H. unfold authWithWeb, getAvailablePort, bind, await, emit, ret.
  by rewrite H.
Qed.

Lemma authWithWeb_inv (P : Platform) (st st' : State) (w : OauthWebLogin) :
  authWithWeb P st = (Ok w, st') →
  ∃ port, ephemeral_port P = Ok port
          ∧ authWithWeb P st
            = (Ok {| authUrl := generateAuthUrl P (redirectUriOf port) (randomBytes_hex P);
                     loginCompletePromise :=
                       match incoming P with
                       | Some req =>
                           oauth2callback P port (redirectUriOf port) (randomBytes_hex P) req
                       | None => await Pending
                       end |},
               with_log (ServerListen port :: log st) st).
Proof.
  intros H. destruct (ephemeral_port P) as [port|e|] eqn:E.
  - exists port. split; [done|]. by apply authWithWeb_listens.
  - unfold authWithWeb, getAvailablePort, bind, await in H. by rewrite E in H.
  - unfold authWithWeb, getAvailablePort, bind, await in H. by rewrite E in H.
Qed.

Lemma respects_authWithWeb allowed P : respects allowed (authWithWeb P).
Proof. unfold authWithWeb, getAvailablePort. frame. Qed.

Lemma respects_getOauthClient allowed P :
  getCachedCredentialPath P ∈ allowed → respects allowed (getOauthClient P).
Proof.
  intros Hin. unfold getOauthClient.
  apply respects_bind; [eauto with frame|intros _].
  apply respects_bind; [apply respects_loadCachedCredentials|intros cached].
  destruct cached; [eauto with frame|].
  apply respects_bind_after; [apply respects_authWithWeb|].
  intros st w st' Hw.
  destruct (authWithWeb_inv P st st' w Hw) as (port & _ & Heq).
  rewrite Heq in Hw. injection Hw as <- <-.
  assert (Hk : respects allowed
                 (emit (OpenBrowser (generateAuthUrl P (redirectUriOf port)
                                       (randomBytes_hex P))) ;;;
                  await (open_url P (generateAuthUrl P (redirectUriOf port)
                                       (randomBytes_hex P))) ;;;
                  match incoming P with
                  | Some req => oauth2callback P port (redirectUriOf port) (randomBytes_hex P) req
                  | None => await Pending
                  end ;;; ret tt)).
  { pose proof (respects_oauth2callback allowed P port (redirectUriOf port)
                  (randomBytes_hex P)) as Hcb.
    frame. }
  apply Hk.
Qed.

Lemma respects_saveProjectConfig allowed P projectId :
  savedConfigPath P ∈ allowed → respects allowed (saveProjectConfig P projectId).
Proof.
  intros Hin. unfold saveProjectConfig.
  pose proof (λ data, respects_writeFile allowed (savedConfigPath P) data Hin) as Hw.
  unfold savedConfigPath in Hw. frame.
Qed.

Lemma respects_loadCodeAssist allowed P projectId :
  respects allowed (loadCodeAssist P projectId).
Proof. unfold loadCodeAssist. frame. Qed.

Lemma respects_onboardUser allowed P projectId :
  respects allowed (onboardUser P projectId).
Proof. unfold onboardUser. frame. Qed.

Lemma respects_initialProjectId allowed P : respects allowed (initialProjectId P).
Proof. unfold initialProjectId. frame. Qed.

Lemma respects_setupUserProject allowed P :
  savedConfigPath P ∈ allowed → respects allowed (setupUserProject P).
Proof.
  intros Hin. unfold setupUserProject.
  pose proof (λ p, respects_saveProjectConfig allowed P p Hin) as Hsave.
  pose proof (respects_loadCodeAssist allowed P) as Hload.
  pose proof (respects_onboardUser allowed P) as Honb.
  pose proof (respects_initialProjectId allowed P) as Hinit.
  frame.
Qed.

Lemma respects_nothing_files {A} (m : M A) (st : State) :
  respects [] m → files (m st).2 = files st.
Proof.
  intros H. apply map_eq. intros path. apply (H st). apply not_elem_of_nil.
Qed.

(** X10. The OAuth login never changes the fields of the instance and
    changes no file other than the credential cache; looking for cached
    credentials writes no file at all. *)
Theorem login_touches_only_the_credential_cache (P : Platform) :
  keeps_session (getOauthClient P)
  ∧ writes_only (getCachedCredentialPath P) (getOauthClient P)
  ∧ ∀ st, files (loadCachedCredentials P st).2 = files st.
Proof.
  pose proof (respects_getOauthClient [getCachedCredentialPath P] P) as H.
  split; [|split].
  - intros st. apply H. by left.
  - intros st other Ho. apply H; [by left|]. by intros ->%list_elem_of_singleton.
  - intros st. apply respects_nothing_files, respects_loadCachedCredentials.
Qed.

(** X11. The project resolution never changes the fields of the instance
    and changes no file other than the project config file; discovery and
    onboarding themselves write no file at all. *)
Theorem setup_touches_only_the_project_config (P : Platform) :
  keeps_session (setupUserProject P)
  ∧ writes_only (savedConfigPath P) (setupUserProject P)
  ∧ (∀ projectId st, files (loadCodeAssist P projectId st).2 = files st)
  ∧ (∀ projectId st, files (onboardUser P projectId st).2 = files st).
Proof.
  pose proof (respects_setupUserProject [savedConfigPath P] P) as H.
  split; [|split; [|split]].
  - intros st. apply H. by left.
  - intros st other Ho. apply H; [by left|]. by intros ->%list_elem_of_singleton.
  - intros projectId st. apply respects_nothing_files, respects_loadCodeAssist.
  - intros projectId st. apply respects_nothing_files, respects_onboardUser.
Qed.

(** ** Initialisation *)

Lemma initializeGeminiClient_oauth (P : Platform) (st : State) :
  useOAuth P = true →
  initializeGeminiClient P st
  = (getOauthClient P ;;;
     modify (with_this_oauthClient true) ;;;
     let* projectId := setupUserProject P in
     modify (with_this_projectId (Some projectId))) st.
Proof.
  intros H. unfold initializeGeminiClient. unfold useOAuth in H. by rewrite H.
Qed.

Lemma ensureInitialized_fresh (P : Platform) (st : State) :
  ¬ initialized st → ensureInitialized P st = initializeGeminiClient P st.
Proof.
  intros Hnot. unfold ensureInitialized, bind, get_state.
  assert (Hm : bool_decide (is_Some (this_model st)) = false).
  { apply bool_decide_eq_false. intros Hs. apply Hnot. by left. }
  assert (Ho : this_oauthClient st = false).
  { destruct (this_oauthClient st) eqn:E; [|done]. exfalso. apply Hnot. by right. }
  by rewrite Hm, Ho.
Qed.

(** X12. When the login succeeds but the project resolution throws, the
    instance keeps its OAuth client and stays without a project id: the
    search reports the error, later searches do not initialise again, and
    without GOOGLE_CLOUD_PROJECT each of them is answered "Project ID not
    available" without any call. *)
Theorem failed_project_setup_is_not_retried (P : Platform) (st st1 st2 : State)
    (e : jsstring) :
  useOAuth P = true →
  ¬ initialized st →
  getOauthClient P st = (Ok tt, st1) →
  setupUserProject P (with_this_oauthClient true st1) = (Throw e, st2) →
  (∀ query, handleWebSearch P (queryArgs query) st = (Ok (searchError query e), st2))
  ∧ this_oauthClient st2 = true
  ∧ this_projectId st2 = this_projectId st
  ∧ ensureInitialized P st2 = (Ok tt, st2)
  ∧ (∀ query,
       is_blank query = false →
       truthy (or_else (this_projectId st)
                 (env P !! "GOOGLE_CLOUD_PROJECT"%string)) = false →
       handleWebSearch P (queryArgs query) st2 = (Ok (searchError query projectIdMissing), st2)).
Proof.
  intros Hoauth Hnot Hlogin Hsetup.
  assert (Hinit : ensureInitialized P st = (Throw e, st2)).
  { rewrite ensureInitialized_fresh, initializeGeminiClient_oauth by done.
    rewrite (bind_ok _ _ _ _ _ Hlogin).
    unfold bind at 1. unfold modify at 1.
    by rewrite (bind_throw _ _ _ _ _ Hsetup). }
  pose proof (respects_getOauthClient [getCachedCredentialPath P] P) as Hl.
  pose proof (respects_setupUserProject [savedConfigPath P] P) as Hs.
  destruct (Hl (ltac:(by left)) st) as [Hl1 _].
  destruct (Hs (ltac:(by left)) (with_this_oauthClient true st1)) as [Hs1 _].
  rewrite Hlogin in Hl1. rewrite Hsetup in Hs1. simpl in Hl1, Hs1.
  unfold session_of in Hl1, Hs1. simpl in Hs1.
  injection Hl1 as Hm1 Ho1 Hp1. injection Hs1 as Hm2 Ho2 Hp2.
  assert (Hp : this_projectId st2 = this_projectId st) by congruence.
  split; [|split; [done|split; [done|split]]].
  - intros query. unfold_handler; unfold try_catch.
    by rewrite (bind_throw _ _ _ _ _ Hinit).
  - apply ensureInitialized_initialized. by right.
  - intros query Hq Hnone. apply oauth_search_project_missing; [done..|].
    by rewrite Hp.
Qed.

Lemma failed_project_setup_witness :
  handleWebSearch setupFailingStation (queryArgs (lit "rocq")) loggedInState
  = (Ok (searchError (lit "rocq") (lit "GOOGLE_CLOUD_PROJECT is required")),
     (setupUserProject setupFailingStation
        (with_this_oauthClient true (getOauthClient setupFailingStation loggedInState).2)).2).
Proof.
  apply (proj1 (failed_project_setup_is_not_retried setupFailingStation loggedInState
                  (getOauthClient setupFailingStation loggedInState).2
                  (setupUserProject setupFailingStation
                     (with_this_oauthClient true
                        (getOauthClient setupFailingStation loggedInState).2)).2
                  (lit "GOOGLE_CLOUD_PROJECT is required")
                  ltac:(vm_compute; reflexivity)
                  ltac:(intros [[m Hm]|Ho]; [vm_compute in Hm | vm_compute in Ho]; discriminate)
                  ltac:(vm_compute; reflexivity)
                  ltac:(vm_compute; reflexivity))).
Defined.

(** ** The login flow *)

(** The login after a miss of the credential cache, up to the callback. *)
Lemma getOauthClient_after_miss (P : Platform) (st st1 : State) (port : Z) :
  loadCachedCredentials P (freshClient st) = (Ok false, st1) →
  ephemeral_port P = Ok port →
  getOauthClient P st
  = match open_url P (generateAuthUrl P (redirectUriOf port) (randomBytes_hex P)) with
    | Ok _ =>
        (match incoming P with
         | Some req => oauth2callback P port (redirectUriOf port) (randomBytes_hex P) req
         | None => await Pending
         end ;;; ret tt)
          (with_log (OpenBrowser (generateAuthUrl P (redirectUriOf port)
                                    (randomBytes_hex P))
                       :: ServerListen port :: log st1) st1)
    | Throw e =>
        (Throw e,
         with_log (OpenBrowser (generateAuthUrl P (redirectUriOf port)
                                  (randomBytes_hex P))
                     :: ServerListen port :: log st1) st1)
    | Pending =>
        (Pending,
         with_log (OpenBrowser (generateAuthUrl P (redirectUriOf port)
                                  (randomBytes_hex P))
                     :: ServerListen port :: log st1) st1)
    end.
Proof.
  intros Hmiss Hport. unfold getOauthClient.
  unfold bind at 1. unfold client_setCredentials, modify at 1.
  fold (freshClient st). rewrite (bind_ok _ _ _ _ _ Hmiss).
  rewrite (bind_ok _ _ _ _ _ (authWithWeb_listens P st1 port Hport)).
  cbn [authUrl loginCompletePromise].
  unfold bind at 1. unfold emit at 1.
  unfold bind at 1. unfold await at 1.
  destruct (open_url P _) as [[]|e|]; reflexivity.
Qed.

Lemma bind_ret {A B} (a : A) (k : A → M B) : bind (ret a) k = k a.
Proof. reflexivity. Qed.

(** Steps into the handler for a request for /oauth2callback whose URL
    parses. *)
Ltac parsed_callback Hurl Hparse :=
  unfold oauth2callback, new_URL;
  unfold searchParamsOf in Hparse; rewrite Hurl, Hparse;
  cbv beta iota delta [negb]; rewrite bind_ret; cbv beta.

Lemma oauth2callback_complete (P : Platform) (st : State) (port : Z)
    (redirectUri state : jsstring) (req : IncomingMessage)
    (qs : URLSearchParams) c code :
  includes (lit "/oauth2callback") (req_url req) = true →
  searchParamsOf P port req = Some qs →
  truthy (searchParams_get qs (lit "error")) = false →
  searchParams_get qs (lit "state") = Some state →
  searchParams_get qs (lit "code") = Some (c :: code) →
  oauth2callback P port redirectUri state req st
  = try_finally
      (let* tokens := client_getToken P (c :: code) redirectUri in
       client_setCredentials tokens ;;;
       let* st := get_state in
       cacheCredentials P (client_credentials st) ;;;
       emit (ServerReply (Redirect SIGN_IN_SUCCESS_URL)) ;;;
       ret tt)
      (λ st, with_log (ServerClose :: log st) st) st.
Proof.
  intros Hurl Hparse Herr Hstate Hcode. parsed_callback Hurl Hparse.
  rewrite Herr, Hstate, Hcode. simpl.
  by rewrite bool_decide_eq_false_2 by (intros H; by apply H).
Qed.



(** X14. The whole login after a miss of the credential cache, when the
    browser comes back to /oauth2callback with a request that, where its
    URL parses, has no error parameter and a state that is not the
    generated one.  When the URL parses the login throws the CSRF
    mismatch, which is also the answer to the browser; when the URL does
    not parse the login throws the parser's error and the browser gets no
    answer.  Either way the token endpoint is not called, no file is
    written, the client's credentials stay as they were and the listener
    is closed. *)
Theorem login_with_a_forged_state (P : Platform) (st st1 : State) (port : Z)
    (req : IncomingMessage) :
  let url := generateAuthUrl P (redirectUriOf port) (randomBytes_hex P) in
  loadCachedCredentials P (freshClient st) = (Ok false, st1) →
  ephemeral_port P = Ok port →
  open_url P url = Ok tt →
  incoming P = Some req →
  includes (lit "/oauth2callback") (req_url req) = true →
  (∀ qs, searchParamsOf P port req = Some qs →
         truthy (searchParams_get qs (lit "error")) = false
         ∧ searchParams_get qs (lit "state") ≠ Some (randomBytes_hex P)) →
  getOauthClient P st
  = match searchParamsOf P port req with
    | Some _ =>
        (Throw csrfMismatch,
         with_log (ServerClose :: ServerReply (Body csrfMismatch)
                     :: OpenBrowser url :: ServerListen port :: log st1) st1)
    | None =>
        (Throw (lit "Invalid URL"),
         with_log (ServerClose :: OpenBrowser url :: ServerListen port :: log st1) st1)
    end.
Proof.
  intros url Hmiss Hport Hopen Hreq Hurl Hforged.
  rewrite (getOauthClient_after_miss P st st1 port Hmiss Hport).
  fold url. rewrite Hopen, Hreq.
  unfold bind at 1.
  destruct (searchParamsOf P port req) as [qs|] eqn:Hparse.
  - destruct (Hforged qs eq_refl) as [Herr Hstate].
    parsed_callback Hurl Hparse. rewrite Herr. simpl.
    by rewrite bool_decide_eq_true_2 by done.
  - unfold oauth2callback, new_URL. unfold searchParamsOf in Hparse.
    by rewrite Hurl, Hparse.
Qed.

Lemma login_with_a_forged_state_witness :
  (getOauthClient (loginStation (Some forgedCallback) (Ok someCredentials)) freshState).1
  = Throw csrfMismatch.
Proof.
  rewrite (login_with_a_forged_state
             (loginStation (Some forgedCallback) (Ok someCredentials))
             freshState freshState 43210 forgedCallback);
    try (vm_compute; reflexivity).
  intros qs Hqs. vm_compute in Hqs. injection Hqs as <-.
  split; [vm_compute; reflexivity | vm_compute; discriminate].
Defined.

(** The same login when the callback names another authority with a port
    that is none: the parser's error, not the CSRF mismatch. *)
Example login_with_a_malformed_callback :
  (getOauthClient (loginStation (Some malformedCallback) (Ok someCredentials))
     freshState).1
  = Throw (lit "Invalid URL").
Proof. vm_compute. reflexivity. Qed.

(** X15. The login has no time limit and does not always close its
    listener.  After a miss of the credential cache: when no request ever
    reaches the listener the login stays pending with the listener open;
    when opening the browser fails the login throws that error and the
    listener is left open; when no port can be had the login throws before
    anything is started. *)
Theorem login_without_a_callback (P : Platform) (st st1 : State) :
  loadCachedCredentials P (freshClient st) = (Ok false, st1) →
  (∀ port,
     ephemeral_port P = Ok port →
     open_url P (generateAuthUrl P (redirectUriOf port) (randomBytes_hex P)) = Ok tt →
     incoming P = None →
     getOauthClient P st
     = (Pending,
        with_log (OpenBrowser (generateAuthUrl P (redirectUriOf port)
                                 (randomBytes_hex P))
                    :: ServerListen port :: log st1) st1))
  ∧ (∀ port e,
       ephemeral_port P = Ok port →
       open_url P (generateAuthUrl P (redirectUriOf port) (randomBytes_hex P))
       = Throw e →
       getOauthClient P st
       = (Throw e,
          with_log (OpenBrowser (generateAuthUrl P (redirectUriOf port)
                                   (randomBytes_hex P))
                      :: ServerListen port :: log st1) st1))
  ∧ (∀ e, ephemeral_port P = Throw e → getOauthClient P st = (Throw e, st1)).
Proof.
  intros Hmiss. split; [|split].
  - intros port Hport Hopen Hreq.
    rewrite (getOauthClient_after_miss P st st1 port Hmiss Hport).
    by rewrite Hopen, Hreq.
  - intros port e Hport Hopen.
    rewrite (getOauthClient_after_miss P st st1 port Hmiss Hport).
    by rewrite Hopen.
  - intros e Hport. unfold getOauthClient.
    unfold bind at 1. unfold client_setCredentials, modify at 1.
    fold (freshClient st). rewrite (bind_ok _ _ _ _ _ Hmiss).
    unfold authWithWeb, getAvailablePort, bind, await. by rewrite Hport.
Qed.

Lemma login_without_a_callback_witness :
  (getOauthClient (loginStation None (Ok someCredentials)) freshState).1 = Pending.
Proof.
  rewrite (proj1 (login_without_a_callback (loginStation None (Ok someCredentials))
                    freshState freshState ltac:(vm_compute; reflexivity)) 43210);
    reflexivity.
Defined.

(** X16. With a credential file that parses and a token the token-info
    call accepts, the login returns the client without a listener and
    without a browser; the file is the one GOOGLE_APPLICATION_CREDENTIALS
    names when it is set; and credentials the client refreshed while
    validating are not written back to the file. *)
Theorem login_with_cached_credentials (P : Platform) (st : State)
    (data : jsstring) (parsed refreshed : Credentials) c token :
  files st !! keyFile P = Some (File data) →
  JSON_parse_credentials P data = Some parsed →
  getAccessToken P parsed = Ok (Some (c :: token), refreshed) →
  getTokenInfo P (c :: token) = Ok tt →
  getOauthClient P st
  = (Ok tt,
     with_log (CallGetTokenInfo (c :: token) :: CallGetAccessToken :: log st)
       (with_client_credentials refreshed st)).
Proof.
  intros Hfile Hparse Htok Hinfo.
  unfold getOauthClient.
  unfold bind at 1. unfold client_setCredentials, modify at 1.
  assert (Hload : loadCachedCredentials P (with_client_credentials noCredentials st)
                  = (Ok true,
                     with_log (CallGetTokenInfo (c :: token) :: CallGetAccessToken :: log st)
                       (with_client_credentials refreshed st))).
  { unfold loadCachedCredentials, try_catch. fold (keyFile P).
    unfold bind at 1. unfold readFile at 1. simpl. rewrite Hfile.
    unfold parse_or_throw. rewrite Hparse.
    unfold bind, ret, client_setCredentials, modify, client_getAccessToken,
      client_getTokenInfo, emit, get_state, await, bind, ret.
    simpl. rewrite Htok. simpl. by rewrite Hinfo. }
  by rewrite (bind_ok _ _ _ _ _ Hload).
Qed.

Lemma login_with_cached_credentials_witness :
  getOauthClient (online ∅) loggedInState
  = (Ok tt,
     with_log [CallGetTokenInfo (lit "ya29.token"); CallGetAccessToken]
       (with_client_credentials someCredentials loggedInState)).
Proof.
  apply (login_with_cached_credentials (online ∅) loggedInState
           someCredentialsDoc someCredentials someCredentials 121%N (lit "a29.token"));
    vm_compute; reflexivity.
Defined.

(** X17. A request that is not a complete callback rejects the login and
    closes the listener.  A URL without /oauth2callback is answered with
    the failure page and rejects with "Unexpected request", whatever its
    parameters; a callback whose URL parses, with the right state but
    neither an error nor a code, rejects with "No code found in request"
    and gets no answer. *)
Theorem incomplete_callbacks_reject (P : Platform) (st : State) (port : Z)
    (redirectUri state : jsstring) (req : IncomingMessage) :
  (includes (lit "/oauth2callback") (req_url req) = false →
   oauth2callback P port redirectUri state req st
   = (Throw (lit "Unexpected request: " ++ req_url req),
      with_log (ServerClose :: ServerReply (Redirect SIGN_IN_FAILURE_URL) :: log st) st))
  ∧ (∀ qs,
       includes (lit "/oauth2callback") (req_url req) = true →
       searchParamsOf P port req = Some qs →
       truthy (searchParams_get qs (lit "error")) = false →
       searchParams_get qs (lit "state") = Some state →
       truthy (searchParams_get qs (lit "code")) = false →
       oauth2callback P port redirectUri state req st
     = (Throw (lit "No code found in request"), with_log (ServerClose :: log st) st)).
Proof.
  split.
  - intros Hurl. unfold oauth2callback. by rewrite Hurl.
  - intros qs Hurl Hparse Herr Hstate Hcode. parsed_callback Hurl Hparse.
    rewrite Herr, Hstate, Hcode. simpl.
    by rewrite bool_decide_eq_false_2 by (intros H; by apply H).
Qed.

Lemma incomplete_callbacks_witness :
  oauth2callback offline 43210 (redirectUriOf 43210) (lit "5f2b") faviconRequest
    freshState
  = (Throw (lit "Unexpected request: /favicon.ico"),
     with_log [ServerClose; ServerReply (Redirect SIGN_IN_FAILURE_URL)] freshState)
  ∧ oauth2callback offline 43210 (redirectUriOf 43210) (lit "5f2b") emptyCallback
      freshState
    = (Throw (lit "No code found in request"), with_log [ServerClose] freshState).
Proof.
  split.
  - apply (proj1 (incomplete_callbacks_reject offline freshState 43210
                    (redirectUriOf 43210) (lit "5f2b") faviconRequest)).
    vm_compute. reflexivity.
  - apply (proj2 (incomplete_callbacks_reject offline freshState 43210
                    (redirectUriOf 43210) (lit "5f2b") emptyCallback)
             (query_pairs (lit "state=5f2b")));
      vm_compute; reflexivity.
Defined.

(** X18. A complete callback can still fail.  When the token exchange
    throws, the login is rejected with that error, nothing is cached, the
    client keeps its credentials and the browser gets no answer; when the
    exchange succeeds but the cache directory cannot be made, the login is
    rejected although the client already holds the new tokens, and no file
    is written.  The listener is closed in both cases. *)
Theorem complete_callback_failures (P : Platform) (st : State) (port : Z)
    (redirectUri state : jsstring) (req : IncomingMessage)
    (qs : URLSearchParams) c code :
  includes (lit "/oauth2callback") (req_url req) = true →
  searchParamsOf P port req = Some qs →
  truthy (searchParams_get qs (lit "error")) = false →
  searchParams_get qs (lit "state") = Some state →
  searchParams_get qs (lit "code") = Some (c :: code) →
  (∀ e, getToken P (c :: code) redirectUri = Throw e →
     oauth2callback P port redirectUri state req st
     = (Throw e,
        with_log (ServerClose :: CallGetToken (c :: code) redirectUri :: log st) st))
  ∧ (∀ tokens node,
       getToken P (c :: code) redirectUri = Ok tokens →
       files st !! path_dirname P (getCachedCredentialPath P) = Some node →
       oauth2callback P port redirectUri state req st
       = (Throw (lit "EEXIST: file already exists"),
          with_log (ServerClose :: CallGetToken (c :: code) redirectUri :: log st)
            (with_client_credentials tokens st))).
Proof.
  intros Hurl Hparse Herr Hstate Hcode.
  rewrite (oauth2callback_complete P st port redirectUri state req qs c code
             Hurl Hparse Herr Hstate Hcode).
  split.
  - intros e Htok. unfold try_finally, client_getToken, bind, emit, await.
    simpl. by rewrite Htok.
  - intros tokens node Htok Hdir.
    unfold try_finally, client_getToken, bind, emit, await, client_setCredentials,
      modify, get_state, cacheCredentials, bind, mkdir.
    simpl. rewrite Htok. simpl. by rewrite Hdir.
Qed.

Lemma complete_callback_failures_witness :
  oauth2callback (loginStation (Some goodCallback) unreachable)
    43210 (redirectUriOf 43210) (lit "5f2b") goodCallback freshState
  = (Throw (lit "fetch failed"),
     with_log [ServerClose; CallGetToken (lit "4/abc") (redirectUriOf 43210)] freshState).
Proof.
  apply (proj1 (complete_callback_failures
                  (loginStation (Some goodCallback) unreachable) freshState
                  43210 (redirectUriOf 43210) (lit "5f2b") goodCallback
                  (query_pairs (lit "code=4/abc&state=5f2b")) 52%N (lit "/abc")
                  ltac:(vm_compute; reflexivity) ltac:(vm_compute; reflexivity)
                  ltac:(vm_compute; reflexivity) ltac:(vm_compute; reflexivity)
                  ltac:(vm_compute; reflexivity))).
  vm_compute. reflexivity.
Defined.

(** X19. Whenever the request handler finishes, by resolving or by
    rejecting, the last thing it did was closing the listener; it can only
    stay unfinished, with the listener open, while the token exchange is
    pending. *)
Theorem handler_closes_the_listener (P : Platform) (st : State) (port : Z)
    (redirectUri state : jsstring) (req : IncomingMessage) :
  match oauth2callback P port redirectUri state req st with
  | (Pending, _) =>
      ∃ qs c code,
        searchParamsOf P port req = Some qs
        ∧ searchParams_get qs (lit "code") = Some (c :: code)
        ∧ getToken P (c :: code) redirectUri = Pending
  | (_, st') => head (log st') = Some ServerClose
  end.
Proof.
  unfold oauth2callback, try_finally, new_URL, searchParamsOf.
  destruct (includes _ _); simpl; [|done].
  destruct (new_URL_searchParams P _ _) as [qs|]; [|done].
  rewrite bind_ret.
  destruct (truthy (searchParams_get _ (lit "error"))); simpl; [done|].
  destruct (bool_decide _); simpl; [done|].
  destruct (searchParams_get qs (lit "code")) as [[|c code]|] eqn:Hcode;
    simpl; [done| |done].
  unfold client_getToken, bind, emit, await. simpl.
  destruct (getToken P (c :: code) redirectUri) as [tokens|e|] eqn:Htok; simpl.
  - unfold client_setCredentials, modify, get_state, cacheCredentials, bind,
      mkdir, writeFile. simpl.
    destruct (files st !! path_dirname P (getCachedCredentialPath P)); simpl; [done|].
    destruct (files st !! getCachedCredentialPath P) as [[|]|]; done.
  - done.
  - by exists qs, c, code.
Qed.

(** ** The credential cache, continued *)

Lemma loadCachedCredentials_missing (P : Platform) (st : State) :
  files st !! keyFile P = None → loadCachedCredentials P st = (Ok false, st).
Proof.
  intros H. unfold loadCachedCredentials, try_catch. fold (keyFile P).
  unfold bind, readFile. by rewrite H.
Qed.

(** X20. Clearing the credential cache never throws, whether the file is
    there or not; unless the path cannot be accessed the file is gone
    afterwards and every other file is as before; and when
    GOOGLE_APPLICATION_CREDENTIALS is not set, loading after clearing
    finds no credentials. *)
Theorem clear_then_load (P : Platform) (st : State) :
  (∀ e st', clearCachedCredentialFile P st ≠ (Throw e, st'))
  ∧ (files st !! getCachedCredentialPath P ≠ Some Denied →
     files (clearCachedCredentialFile P st).2 = delete (getCachedCredentialPath P) (files st)
     ∧ (truthy (env P !! "GOOGLE_APPLICATION_CREDENTIALS"%string) = false →
        (clearCachedCredentialFile P ;;; loadCachedCredentials P) st
        = (Ok false, (clearCachedCredentialFile P st).2))).
Proof.
  split; [apply try_catch_returns|].
  intros Hfile.
  assert (Hclear : clearCachedCredentialFile P st
                   = (Ok tt, (clearCachedCredentialFile P st).2)
                   ∧ files (clearCachedCredentialFile P st).2
                     = delete (getCachedCredentialPath P) (files st)).
  { unfold clearCachedCredentialFile, try_catch, rm, ret.
    destruct (files st !! getCachedCredentialPath P) as [[|]|] eqn:E; simpl.
    - done.
    - done.
    - split; [done|]. symmetry. by apply delete_id. }
  destruct Hclear as [Hrun Hfiles]. split; [exact Hfiles|].
  intros Henv. rewrite (bind_ok _ _ _ _ _ Hrun).
  apply loadCachedCredentials_missing.
  assert (Hkey : keyFile P = getCachedCredentialPath P).
  { unfold keyFile. by destruct (env P !! _) as [[|]|]. }
  rewrite Hkey, Hfiles. apply lookup_delete_eq.
Qed.

Lemma clear_then_load_witness :
  (clearCachedCredentialFile (online ∅) ;;; loadCachedCredentials (online ∅))
    loggedInState
  = (Ok false, (clearCachedCredentialFile (online ∅) loggedInState).2).
Proof.
  apply (proj2 (clear_then_load (online ∅) loggedInState)).
  - vm_compute. discriminate.
  - vm_compute. reflexivity.
Defined.

(** X21. Saving credentials replaces what was saved before: saving twice
    leaves the state of saving the second credentials alone.  A save
    changes no other file, and when the cache directory cannot be made it
    throws and writes nothing. *)
Theorem cacheCredentials_last_write_wins (P : Platform) (st : State)
    (first second : Credentials) :
  (files st !! path_dirname P (getCachedCredentialPath P) = None →
   files st !! getCachedCredentialPath P ≠ Some Denied →
   path_dirname P (getCachedCredentialPath P) ≠ getCachedCredentialPath P →
   (cacheCredentials P first ;;; cacheCredentials P second) st
   = cacheCredentials P second st)
  ∧ writes_only (getCachedCredentialPath P) (cacheCredentials P second)
  ∧ (∀ node, files st !! path_dirname P (getCachedCredentialPath P) = Some node →
       cacheCredentials P second st = (Throw (lit "EEXIST: file already exists"), st)).
Proof.
  split; [|split].
  - intros Hdir Hfile Hne.
    rewrite (bind_ok _ _ _ _ _ (cacheCredentials_writes P st first Hdir Hfile)).
    rewrite (cacheCredentials_writes P st second Hdir Hfile).
    rewrite cacheCredentials_writes; simpl.
    + by rewrite insert_insert_eq.
    + by rewrite lookup_insert_ne.
    + by rewrite lookup_insert_eq.
  - intros st' other Ho.
    apply (respects_cacheCredentials [getCachedCredentialPath P] P second);
      [by left|]. by intros ->%list_elem_of_singleton.
  - intros node Hdir. unfold cacheCredentials, bind, mkdir. by rewrite Hdir.
Qed.

Lemma cacheCredentials_last_write_wins_witness :
  (cacheCredentials (online ∅) noCredentials ;;;
   cacheCredentials (online ∅) someCredentials) freshState
  = cacheCredentials (online ∅) someCredentials freshState.
Proof.
  apply (proj1 (cacheCredentials_last_write_wins (online ∅) freshState
                  noCredentials someCredentials)).
  - vm_compute. reflexivity.
  - vm_compute. discriminate.
  - vm_compute. discriminate.
Defined.

(** ** Project resolution, continued *)

(** X22. Discovery, once the request got an answer: a 2xx answer is its
    JSON body; of the others, 404 and 403 mean "onboarding required"
    instead of an error, and every other status throws "Load Code Assist
    failed" with status, status text and body.  The body of a failed
    answer is read first, so a body that cannot be read is thrown even
    for 404 and 403. *)
Theorem loadCodeAssist_by_status (P : Platform) (st : State)
    (projectId token : option jsstring) (creds : Credentials)
    (response : FetchResponse ProjectSetupResponse) :
  getAccessToken P (client_credentials st) = Ok (token, creds) →
  post_loadCodeAssist P token projectId = Ok response →
  loadCodeAssist P projectId st
  = (if ok response then body_json response
     else match body_text response with
          | Ok errorText =>
              if bool_decide (status response = 404) || bool_decide (status response = 403)
              then Ok {| cloudaicompanionProject := None; userTier := None;
                         onboardingRequired := Some true |}
              else Throw (lit "Load Code Assist failed: "
                            ++ number_to_string (status response) ++ lit " "
                            ++ statusText response ++ lit " - " ++ errorText)
          | Throw e => Throw e
          | Pending => Pending
          end,
     with_log (CallFetch LOAD_CODE_ASSIST :: CallGetAccessToken :: log st)
       (with_client_credentials creds (with_log (CallGetAccessToken :: log st) st))).
Proof.
  intros Htok Hfetch. unfold loadCodeAssist.
  rewrite (bind_ok _ _ _ _ _ (client_getAccessToken_ok P st _ _ Htok)).
  unfold bind, emit, await, ret, throw. simpl. rewrite Hfetch.
  destruct (ok response); simpl.
  - by destruct (body_json response).
  - destruct (body_text response) as [errorText| |]; [|done..].
    by destruct (_ || _).
Qed.

Lemma loadCodeAssist_by_status_witness :
  (loadCodeAssist (discoveryStation ∅ 404) None loggedInState).1
  = Ok {| cloudaicompanionProject := None; userTier := None;
          onboardingRequired := Some true |}.
Proof.
  rewrite (loadCodeAssist_by_status (discoveryStation ∅ 404) loggedInState None None
             noCredentials (httpError 404 (lit "Not Found")));
    reflexivity.
Defined.

(** X23. Onboarding, once the request got an answer: from a 2xx answer
    the project id is the id inside response.cloudaicompanionProject, or
    else the top-level cloudaicompanionProject, or else the id that was
    passed in; any other status, 404 and 403 included, throws "User
    onboarding failed". *)
Theorem onboardUser_by_status (P : Platform) (st : State)
    (projectId token : option jsstring) (creds : Credentials)
    (response : FetchResponse OnboardUserResult) :
  getAccessToken P (client_credentials st) = Ok (token, creds) →
  post_onboardUser P token projectId = Ok response →
  onboardUser P projectId st
  = (if ok response then
       match body_json response with
       | Ok result =>
           Ok (or_else (onboard_response_project_id result)
                 (or_else (onboard_project result) projectId))
       | Throw e => Throw e
       | Pending => Pending
       end
     else match body_text response with
          | Ok errorText =>
              Throw (lit "User onboarding failed: "
                       ++ number_to_string (status response) ++ lit " "
                       ++ statusText response ++ lit " - " ++ errorText)
          | Throw e => Throw e
          | Pending => Pending
          end,
     with_log (CallFetch ONBOARD_USER :: CallGetAccessToken :: log st)
       (with_client_credentials creds (with_log (CallGetAccessToken :: log st) st))).
Proof.
  intros Htok Hfetch. unfold onboardUser.
  rewrite (bind_ok _ _ _ _ _ (client_getAccessToken_ok P st _ _ Htok)).
  unfold bind, emit, await, ret, throw. simpl. rewrite Hfetch.
  destruct (ok response); simpl.
  - by destruct (body_json response).
  - by destruct (body_text response).
Qed.

Lemma onboardUser_by_status_witness :
  (onboardUser (discoveryStation ∅ 404) (Some (lit "explicit-project")) loggedInState).1
  = Ok (Some (lit "explicit-project")).
Proof.
  rewrite (onboardUser_by_status (discoveryStation ∅ 404) loggedInState
             (Some (lit "explicit-project")) None noCredentials
             (jsonReply {| onboard_response_project_id := None; onboard_project := None |}));
    reflexivity.
Defined.

(** X24. Saving the project config never throws.  When the config
    directory can be made and the file written (and [path.join] and
    [JSON] behave), the saved id is what the next run finds cached, and
    the id that run starts from when GOOGLE_CLOUD_PROJECT is not set; when
    the directory cannot be made, nothing is saved and nothing is
    reported. *)
Theorem saved_project_is_the_next_start (P : Platform) (st : State) (c : N)
    (p : jsstring) :
  (∀ e st', saveProjectConfig P (c :: p) st ≠ (Throw e, st'))
  ∧ (savedConfigPath P = configPath P →
     JSON_parse_config P (JSON_stringify_config P (configOf P (c :: p)))
     = Some (configOf P (c :: p)) →
     files st !! configDir P = None →
     files st !! savedConfigPath P ≠ Some Denied →
     cachedProjectId P (saveProjectConfig P (c :: p) st).2 = Some (c :: p)
     ∧ (truthy (explicitProjectId P) = false →
        (saveProjectConfig P (c :: p) ;;; initialProjectId P) st
        = (Ok (Some (c :: p)), (saveProjectConfig P (c :: p) st).2)))
  ∧ (∀ node, files st !! configDir P = Some node →
       saveProjectConfig P (c :: p) st = (Ok tt, st)).
Proof.
  split; [apply try_catch_returns|]. split.
  - intros Hpath Hjson Hdir Hfile.
    assert (Hsaved : (saveProjectConfig P (c :: p) st).2
                     = with_files (<[configPath P :=
                          File (JSON_stringify_config P (configOf P (c :: p)))]> (files st)) st).
    { unfold saveProjectConfig, try_catch, bind, mkdir, writeFile.
      rewrite Hdir. fold (savedConfigPath P). fold (configOf P (c :: p)).
      rewrite <- Hpath.
      by destruct (files st !! savedConfigPath P) as [[|]|]. }
    assert (Hcached : cachedProjectId P (saveProjectConfig P (c :: p) st).2 = Some (c :: p)).
    { rewrite Hsaved. unfold cachedProjectId. simpl.
      by rewrite lookup_insert_eq, Hjson. }
    split; [exact Hcached|].
    intros Hexplicit.
    rewrite (bind_ok _ _ _ _ _ (saveProjectConfig_returns P (c :: p) st)).
    rewrite initialProjectId_spec. by rewrite Hexplicit, Hcached.
  - intros node Hdir. unfold saveProjectConfig, try_catch, bind, mkdir.
    by rewrite Hdir.
Qed.

Lemma saved_project_witness :
  (saveProjectConfig setupFailingStation (lit "remote-project") ;;;
   initialProjectId setupFailingStation) freshState
  = (Ok (Some (lit "remote-project")),
     (saveProjectConfig setupFailingStation (lit "remote-project") freshState).2).
Proof.
  apply (proj1 (proj2 (saved_project_is_the_next_start setupFailingStation freshState
                         114%N (lit "emote-project")))).
  - vm_compute. reflexivity.
  - vm_compute. reflexivity.
  - vm_compute. reflexivity.
  - vm_compute. discriminate.
  - vm_compute. reflexivity.
Defined.

(** X25. When discovery names no project and asks for no onboarding, the
    resolution writes no file: a project id that was only configured or
    cached is never saved to the config file. *)
Theorem unconfirmed_project_is_not_saved (P : Platform) (st st1 : State)
    (loadResult : ProjectSetupResponse) :
  loadCodeAssist P
    (if truthy (explicitProjectId P) then explicitProjectId P
     else if truthy (cachedProjectId P st) then cachedProjectId P st
     else explicitProjectId P) st
  = (Ok loadResult, st1) →
  truthy (cloudaicompanionProject loadResult) = false →
  onboardingRequired loadResult ≠ Some true →
  files (setupUserProject P st).2 = files st.
Proof.
  intros Hload Hnone Hno.
  pose proof (respects_nothing_files _ st (respects_loadCodeAssist [] P
                (if truthy (explicitProjectId P) then explicitProjectId P
                 else if truthy (cachedProjectId P st) then cachedProjectId P st
                 else explicitProjectId P))) as Hfiles.
  rewrite Hload in Hfiles. simpl in Hfiles.
  unfold setupUserProject.
  rewrite (bind_ok _ _ _ _ _ (initialProjectId_spec P st)).
  rewrite (bind_ok _ _ _ _ _ Hload).
  set (initial := if truthy (explicitProjectId P) then _ else _).
  assert (Hskip : (match cloudaicompanionProject loadResult with
                   | Some (c :: p) => saveProjectConfig P (c :: p) ;;; ret (Some (c :: p))
                   | _ => ret initial
                   end) st1 = (Ok initial, st1)).
  { by destruct (cloudaicompanionProject loadResult) as [[|]|]. }
  rewrite (bind_ok _ _ _ _ _ Hskip).
  destruct (onboardingRequired loadResult) as [[|]|]; [done|..];
    unfold bind, ret, throw; by destruct initial as [[|]|].
Qed.

Lemma unconfirmed_project_witness :
  files (setupUserProject (onlineWithoutProject explicitEnv) loggedInState).2
  = files loggedInState.
Proof.
  apply (unconfirmed_project_is_not_saved (onlineWithoutProject explicitEnv) loggedInState
           (with_log [CallFetch LOAD_CODE_ASSIST; CallGetAccessToken] loggedInState)
           {| cloudaicompanionProject := None; userTier := None;
              onboardingRequired := None |}).
  - vm_compute. reflexivity.
  - reflexivity.
  - discriminate.
Defined.

(** X26. Checking whether the API is enabled never throws.  It answers
    true exactly when the Service Usage answer is 2xx and its state is
    ENABLED; it is one request, made with the token of
    GOOGLE_ACCESS_TOKEN and not with the OAuth client's. *)
Theorem checkApiEnabled_is_best_effort (P : Platform)
    (get : jsstring → option jsstring → outcome (FetchResponse (option jsstring)))
    (projectId : jsstring) (st : State) :
  (∀ e st', checkApiEnabled P get projectId st ≠ (Throw e, st'))
  ∧ ((checkApiEnabled P get projectId st).1 = Ok true
     ↔ ∃ response,
         get (serviceEndpoint projectId) (env P !! "GOOGLE_ACCESS_TOKEN"%string)
         = Ok response
         ∧ ok response = true
         ∧ body_json response = Ok (Some (lit "ENABLED")))
  ∧ (checkApiEnabled P get projectId st).2
    = with_log (CallFetch (serviceEndpoint projectId) :: log st) st.
Proof.
  split; [apply try_catch_returns|].
  unfold checkApiEnabled, try_catch, bind, emit, await, ret.
  destruct (get _ _) as [response|e|] eqn:Hget; simpl.
  - destruct (ok response) eqn:Hok; simpl.
    + destruct (body_json response) as [result|e|] eqn:Hjson; simpl.
      * split; [|done]. split.
        -- intros [= Hb]. apply bool_decide_eq_true in Hb. subst result.
           by exists response.
        -- intros (r & [= <-] & _ & Hr). rewrite Hjson in Hr.
           injection Hr as ->. by rewrite bool_decide_eq_true_2.
      * split; [|done]. split; [done|].
        intros (r & [= <-] & _ & Hr). congruence.
      * split; [|done]. split; [done|].
        intros (r & [= <-] & _ & Hr). congruence.
    + split; [|done]. split; [done|].
      intros (r & [= <-] & Hr & _). congruence.
  - split; [|done]. split; [done|]. intros (r & [=] & _).
  - split; [|done]. split; [done|]. intros (r & [=] & _).
Qed.

Lemma checkApiEnabled_witness :
  (checkApiEnabled offline enabledService (lit "remote-project") freshState).1 = Ok true.
Proof.
  apply (proj1 (proj2 (checkApiEnabled_is_best_effort offline enabledService
                         (lit "remote-project") freshState))).
  exists (jsonReply (Some (lit "ENABLED"))). repeat split; reflexivity.
Defined.

(** ** The command line client *)

(** Where the server's Code Assist call returns, the client's returns the
    same; where the server's stays pending, so does the client's. *)
Lemma cli_callCodeAssistAPI_agrees (P : Platform) (query : jsstring) (st st' : State)
    (r : outcome SearchData) :
  callCodeAssistAPI P query st = (r, st') →
  (∀ e, r ≠ Throw e) →
  cli_callCodeAssistAPI P query st = (r, st').
Proof.
  unfold callCodeAssistAPI, cli_callCodeAssistAPI.
  cbv beta iota delta [bind get_state emit await ret throw negb].
  intros H Hr. revert H.
  destruct (this_oauthClient st); [|intros [= <- <-]; by destruct (Hr _ eq_refl)].
  destruct (or_else _ _) as [[|c p]|]; try (intros [= <- <-]; by destruct (Hr _ eq_refl)).
  destruct (client_getAccessToken P st) as [[token| |] st1];
    cbv beta iota; try done.
  destruct (post_generateContent P token (c :: p) query) as [response| |];
    cbv beta iota; try done.
  destruct (ok response); cbv beta iota; [|intros [= <- <-]; by destruct (Hr _ eq_refl)].
  by destruct (body_json response).
Qed.

(** X27. The command line client prints what the server answers.  For
    arguments that are not empty, whenever the server, asked on a fresh
    instance for the arguments joined by single spaces, returns a result
    that is not an error, the client prints exactly that text on standard
    output, does not call [process.exit], and leaves the same state
    behind. *)
Theorem cli_prints_the_server_answer (P : Platform) (st st' : State)
    (arg : jsstring) (args : list jsstring) (result : CallToolResult) :
  handleWebSearch P (queryArgs (array_join (lit " ") (arg :: args)))
    (new_GoogleSearchCLI st)
  = (Ok result, st') →
  isError result = false →
  cli_main P (arg :: args) st
  = (Ok {| stdout := [content_text result]; stderr := []; exitCode := None |}, st').
Proof.
  unfold cli_main.
  set (query := array_join (lit " ") (arg :: args)). clearbody query.
  unfold bind at 1. unfold modify at 1.
  set (st0 := new_GoogleSearchCLI st). clearbody st0.
  unfold_handler; unfold cli_search, try_catch.
  cbv beta iota delta [bind get_state ret throw emit await].
  destruct (ensureInitialized P st0) as [[[]| |] st1]; cbv beta iota;
    [|intros [= <- <-]; done|done].
  destruct (is_blank query); [intros [= <- <-]; done|].
  destruct (this_oauthClient st1).
  - destruct (callCodeAssistAPI P query st1) as [[data| |] st2] eqn:Hcall;
      cbv beta iota; [|intros [= <- <-]; done|done].
    rewrite (cli_callCodeAssistAPI_agrees P query st1 st2 (Ok data) Hcall) by done.
    destruct (is_blank (responseText data)); by intros [= <- <-].
  - destruct (this_model st1) as [key|]; [|intros [= <- <-]; done].
    destruct (sendMessage P key query) as [response| |]; cbv beta iota;
      [|intros [= <- <-]; done|done].
    destruct (response_text response) as [t| |];
      cbv beta iota delta [responseText sources supports];
      [|intros [= <- <-]; done|done].
    destruct (is_blank t); by intros [= <- <-].
Qed.

Lemma cli_prints_witness :
  cli_main (keyStation (lit "Rocq 9.1 is out.")) [lit "rocq"; lit "release"] freshState
  = (Ok {| stdout := [content_text (searchResults (lit "rocq release")
                                      (lit "Rocq 9.1 is out."))];
           stderr := []; exitCode := None |},
     (handleWebSearch (keyStation (lit "Rocq 9.1 is out.")) (queryArgs (lit "rocq release"))
        (new_GoogleSearchCLI freshState)).2).
Proof.
  apply (cli_prints_the_server_answer (keyStation (lit "Rocq 9.1 is out.")) freshState _
           (lit "rocq") [lit "release"]
           (searchResults (lit "rocq release") (lit "Rocq 9.1 is out."))).
  - vm_compute. reflexivity.
  - reflexivity.
Defined.

(** X28. Where the client differs from the server: a [generateContent]
    response that is not 2xx makes the client read the body and put it
    into the message it writes to standard error before it exits with
    code 1, while the server's message stops at the status text. *)
Theorem cli_reports_the_error_body (P : Platform) (st : State) (query : jsstring)
    c p token creds response errorText :
  this_oauthClient st = true →
  is_blank query = false →
  or_else (this_projectId st) (env P !! "GOOGLE_CLOUD_PROJECT"%string) = Some (c :: p) →
  getAccessToken P (client_credentials st) = Ok (token, creds) →
  post_generateContent P token (c :: p) query = Ok response →
  ok response = false →
  body_text response = Ok errorText →
  (cli_search P query st).1
  = Ok {| stdout := [];
          stderr := [content_text (searchError query
                       (lit "Code Assist API error: "
                          ++ number_to_string (status response) ++ lit " "
                          ++ statusText response ++ lit " - " ++ errorText))];
          exitCode := Some 1 |}
  ∧ (handleWebSearch P (queryArgs query) st).1
    = Ok (searchError query
            (lit "Code Assist API error: " ++ number_to_string (status response)
               ++ lit " " ++ statusText response)).
Proof.
  intros Ho Hq Hp Htok Hfetch Hok Hbody.
  assert (Hinit : ensureInitialized P st = (Ok tt, st)).
  { apply ensureInitialized_initialized. by right. }
  split.
  - unfold cli_search, try_catch.
    rewrite (bind_ok _ _ _ _ _ Hinit), Hq.
    unfold bind at 1. unfold get_state at 1. rewrite Ho.
    unfold bind at 1. unfold cli_callCodeAssistAPI.
    unfold bind at 1. unfold get_state at 1. rewrite Ho, Hp.
    cbv beta iota delta [negb].
    rewrite (bind_ok _ _ _ _ _ (client_getAccessToken_ok P st _ _ Htok)).
    cbv beta iota delta [bind emit await ret throw].
    rewrite Hfetch. cbv beta iota. rewrite Hok. cbv beta iota delta [negb].
    rewrite Hbody. reflexivity.
  - rewrite handleWebSearch_oauth by done.
    rewrite (callCodeAssistAPI_fetch P st query c p token creds response) by done.
    by rewrite Hok.
Qed.

Lemma cli_reports_the_error_body_witness :
  (cli_search (assistStation explicitEnv (httpError 429 (lit "Too Many Requests")))
     (lit "rocq") oauthSession).1
  = Ok {| stdout := [];
          stderr := [content_text (searchError (lit "rocq")
                       (lit "Code Assist API error: 429 Too Many Requests - denied"))];
          exitCode := Some 1 |}.
Proof.
  apply (proj1 (cli_reports_the_error_body
                  (assistStation explicitEnv (httpError 429 (lit "Too Many Requests")))
                  oauthSession (lit "rocq") 101%N (lit "xplicit-project")
                  None noCredentials (httpError 429 (lit "Too Many Requests"))
                  (lit "denied")
                  eq_refl eq_refl eq_refl eq_refl eq_refl eq_refl eq_refl)).
Defined.

(** X29. How the transport is chosen.  When USE_OAUTH is 'true' or no API
    key is set, initialisation is the OAuth login followed by the project
    resolution: a login that throws or stays pending ends it there; after
    a login that returns, [this.oauthClient] is set whatever the project
    resolution does, and the initialisation ends as the resolution does,
    storing the project id it returns.  No model is built on this path,
    even if an API key is configured.  Otherwise the initialisation makes
    no call at all and always succeeds: the model is built with
    GOOGLE_API_KEY, or with GEMINI_API_KEY when that one is unset or
    empty, so the "Authentication required" error is never thrown. *)
Theorem transport_selection (P : Platform) (st : State) :
  (useOAuth P = true →
   this_model (initializeGeminiClient P st).2 = this_model st
   ∧ match getOauthClient P st with
     | (Ok _, st1) =>
         this_oauthClient (initializeGeminiClient P st).2 = true
         ∧ match setupUserProject P (with_this_oauthClient true st1) with
           | (Ok projectId, st2) =>
               initializeGeminiClient P st
               = (Ok tt, with_this_projectId (Some projectId) st2)
           | (Throw e, st2) => initializeGeminiClient P st = (Throw e, st2)
           | (Pending, st2) => initializeGeminiClient P st = (Pending, st2)
           end
     | (Throw e, st1) => initializeGeminiClient P st = (Throw e, st1)
     | (Pending, st1) => initializeGeminiClient P st = (Pending, st1)
     end)
  ∧ (useOAuth P = false →
     ∃ c key,
       or_else (env P !! "GOOGLE_API_KEY"%string) (env P !! "GEMINI_API_KEY"%string)
       = Some (c :: key)
       ∧ initializeGeminiClient P st
         = (Ok tt, with_this_model (Some (c :: key)) st)).
Proof.
  split.
  - intros Hoauth.
    pose proof (respects_getOauthClient [getCachedCredentialPath P] P
                  ltac:(by left) st) as [Hl _].
    pose proof (initializeGeminiClient_oauth P st Hoauth) as Hinit.
    destruct (getOauthClient P st) as [[[]|e|] st1] eqn:Hlogin; simpl in Hl.
    + rewrite (bind_ok _ _ _ _ _ Hlogin) in Hinit.
      unfold bind at 1 in Hinit. unfold modify at 1 in Hinit.
      pose proof (respects_setupUserProject [savedConfigPath P] P
                    ltac:(by left) (with_this_oauthClient true st1)) as [Hs _].
      unfold session_of in Hl, Hs. injection Hl as Hl _ _.
      destruct (setupUserProject P (with_this_oauthClient true st1))
        as [[p|e|] st2] eqn:Hsetup; simpl in Hs; injection Hs as Hs Ho _.
      * rewrite (bind_ok _ _ _ _ _ Hsetup) in Hinit. unfold modify in Hinit.
        rewrite Hinit. simpl. split; [congruence|done].
      * rewrite (bind_throw _ _ _ _ _ Hsetup) in Hinit.
        rewrite Hinit. simpl. split; [congruence|done].
      * rewrite (bind_pending _ _ _ _ Hsetup) in Hinit.
        rewrite Hinit. simpl. split; [congruence|done].
    + rewrite (bind_throw _ _ _ _ _ Hlogin) in Hinit.
      rewrite Hinit. split; [by injection Hl | done].
    + rewrite (bind_pending _ _ _ _ Hlogin) in Hinit.
      rewrite Hinit. split; [by injection Hl | done].
  - intros Hkey. unfold useOAuth in Hkey.
    apply orb_false_elim in Hkey as [Hflag Htruthy].
    apply negb_false_iff in Htruthy.
    unfold initializeGeminiClient. rewrite Hflag, Htruthy. simpl.
    destruct (or_else _ _) as [[|c key]|]; [done| |done].
    by exists c, key.
Qed.

Lemma transport_selection_witness :
  initializeGeminiClient (keyStation (lit "x")) freshState
  = (Ok tt, with_this_model (Some (lit "AIza-key")) freshState).
Proof.
  destruct (proj2 (transport_selection (keyStation (lit "x")) freshState))
    as (c & key & Hkey & Hinit); [vm_compute; reflexivity|].
  rewrite Hinit. vm_compute in Hkey. injection Hkey as <- <-. reflexivity.
Defined.
